(** * gen-mocks: mock generation for Go interfaces

    A shallow embedding of the two variants of the generator
    ([gen_mocks.go], selecting interfaces by the fixed suffix "Service",
    and its sibling, selecting them by a regular expression) together
    with the properties of the mock synthesizer, the interface selector
    and the output sink. *)

From Stdlib Require Import String Ascii List Arith Lia Bool.
From stdpp Require Import base option list strings gmap pretty.

Local Open Scope string_scope.
Local Open Scope list_scope.

(** ** The fragment of [go/ast] the generator works on *)

(** A [*ast.FuncType] is a pointer: the generator stores the same pointer in
    the mock's struct field and in the delegating method, and one variant
    writes through it.  Function types therefore live in a store and the
    syntax refers to them by address. *)
Abbreviation loc := nat (only parsing).

#[warnings="-register-all"]
Inductive Expr : Type :=
| Ident (Name : string)
| StarExpr (X : Expr)
| SelectorExpr (X : Expr) (Sel : string)
| Ellipsis (Elt : Expr)
| ArrayType (Elt : Expr)
| MapType (Key : Expr) (Value : Expr)
| FuncTypeAt (p : loc)
| InterfaceType (Methods : list Field)
| StructType (Fields : list Field)
| CallExpr (Fun : Expr) (Args : list Expr)
with Field : Type :=
| mkField (Names : list string) (Type_ : Expr).

Definition Names (f : Field) : list string :=
  match f with mkField ns _ => ns end.

Definition Type_ (f : Field) : Expr :=
  match f with mkField _ t => t end.

(** [ast.FuncType]: [Params] and [Results] are field lists, each entry a
    group of names sharing one type. *)
Record FuncType : Type := mkFuncType {
  Params : list Field;
  Results : list Field
}.

Abbreviation Heap := (gmap loc FuncType) (only parsing).

(** [ast.TypeSpec], with the file name that [fset.Position(iface.Pos())]
    reports for it. *)
Record TypeSpec : Type := mkTypeSpec {
  ts_Name : string;
  ts_Type : Expr;
  ts_Filename : string
}.

Inductive Stmt : Type :=
| ReturnStmt (Results : list Expr).

Inductive Decl : Type :=
| ImportDecl (Path : string)
| TypeDecl (Name : string) (Type_ : Expr)
| FuncDecl (Recv : list Field) (Name : string) (Type_ : loc) (Body : list Stmt).

Record File : Type := mkFile {
  f_Name : string;
  f_Decls : list Decl
}.

(** ** Results of fallible code

    [Error] is a returned [error]; [Panic] is a run-time panic (a failed type
    assertion, an index out of range). *)
Inductive Result (A : Type) : Type :=
| Ok (a : A)
| Error (err : string)
| Panic (msg : string).
Arguments Ok {A} a.
Arguments Error {A} err.
Arguments Panic {A} msg.

(** ** Helpers shared by both variants *)

(** [fieldListToIdentList]: one identifier per declared name, group by
    group. *)
Fixpoint fieldListToIdentList (fl : list Field) : list Expr :=
  match fl with
  | [] => []
  | f :: rest => map Ident (Names f) ++ fieldListToIdentList rest
  end.

(** [fmt.Sprintf("v%d", i)] *)
Definition synthName (i : nat) : string := "v" +:+ pretty i.

(** [synthesizeFieldNamesIfMissing], as a loop over [fl.List] from index
    [i]: a group without names receives the single name [v<i>]. *)
Fixpoint synthesizeFrom (i : nat) (fl : list Field) : list Field :=
  match fl with
  | [] => []
  | f :: rest =>
      (if Nat.eqb (length (Names f)) 0
       then mkField [synthName i] (Type_ f)
       else f) :: synthesizeFrom (S i) rest
  end.

Definition synthesizeFieldNamesIfMissing (fl : list Field) : list Field :=
  synthesizeFrom 0 fl.

(** [methField.Names[0].Name] *)
Definition firstName (f : Field) : option string := head (Names f).

(** The first loop of [writeMockImplFiles], identical in both variants: one
    struct field per method-list entry whose type is a function type; the
    other entries are passed over. *)
Fixpoint mockFields (ms : list Field) : Result (list Field) :=
  match ms with
  | [] => Ok []
  | m :: rest =>
      match Type_ m with
      | FuncTypeAt p =>
          match firstName m with
          | None => Panic "index out of range"
          | Some name =>
              match mockFields rest with
              | Ok fs => Ok (mkField [name +:+ "_"] (FuncTypeAt p) :: fs)
              | failure => failure
              end
          end
      | _ => mockFields rest
      end
  end.

(** The receiver [s *Mock<I>] and the delegating method
    [func (s *Mock<I>) name(...) ... { return s.name_(args) }]. *)
Definition recvOf (mockTypeName : string) : list Field :=
  [mkField ["s"] (StarExpr (Ident mockTypeName))].

Definition delegate (mockTypeName name : string) (p : loc) (args : list Expr) : Decl :=
  FuncDecl (recvOf mockTypeName) name p
    [ReturnStmt [CallExpr (SelectorExpr (Ident "s") (name +:+ "_")) args]].

Definition mockTypeNameOf (iface : TypeSpec) : string := "Mock" +:+ ts_Name iface.

(** [astutil.AddImport] on a file without import declarations: the new import
    declaration becomes the file's first declaration. *)
Definition AddImport (path : string) (f : File) : File :=
  mkFile (f_Name f) (ImportDecl path :: f_Decls f).

(** ** The regular-expression variant: building one mock file *)
Module Regex.

(** The second loop: [synthesizeFieldNamesIfMissing(meth.Params)] writes
    through the pointer, then the method is built from the updated
    parameter list. *)
Fixpoint mockMethods (mockTypeName : string) (ms : list Field) (h : Heap)
  : Result (list Decl) * Heap :=
  match ms with
  | [] => (Ok [], h)
  | m :: rest =>
      match Type_ m with
      | FuncTypeAt p =>
          match h !! p with
          | None => (Panic "nil pointer dereference", h)
          | Some ft =>
              let ft' := mkFuncType (synthesizeFieldNamesIfMissing (Params ft)) (Results ft) in
              let h1 := <[p := ft']> h in
              match firstName m with
              | None => (Panic "index out of range", h1)
              | Some name =>
                  match mockMethods mockTypeName rest h1 with
                  | (Ok ds, h2) =>
                      (Ok (delegate mockTypeName name p (fieldListToIdentList (Params ft')) :: ds), h2)
                  | failure => failure
                  end
              end
          end
      | _ => mockMethods mockTypeName rest h
      end
  end.

(** The [ast.File] built for one interface. *)
Definition mockFile (outPkg : string) (iface : TypeSpec) (h : Heap) : Result File * Heap :=
  match ts_Type iface with
  | InterfaceType ms =>
      match mockFields ms with
      | Ok fields =>
          match mockMethods (mockTypeNameOf iface) ms h with
          | (Ok meths, h') =>
              (Ok (mkFile outPkg (TypeDecl (mockTypeNameOf iface) (StructType fields) :: meths)), h')
          | (Error e, h') => (Error e, h')
          | (Panic msg, h') => (Panic msg, h')
          end
      | Error e => (Error e, h)
      | Panic msg => (Panic msg, h)
      end
  | _ => (Panic "interface conversion", h)
  end.

End Regex.

(** ** The fixed-suffix variant ([gen_mocks.go]): building one mock file *)
Module Suffix.

(** The second loop; this variant reads the parameter list as it is. *)
Fixpoint mockMethods (mockTypeName : string) (ms : list Field) (h : Heap)
  : Result (list Decl) :=
  match ms with
  | [] => Ok []
  | m :: rest =>
      match Type_ m with
      | FuncTypeAt p =>
          match h !! p with
          | None => Panic "nil pointer dereference"
          | Some ft =>
              match firstName m with
              | None => Panic "index out of range"
              | Some name =>
                  match mockMethods mockTypeName rest h with
                  | Ok ds =>
                      Ok (delegate mockTypeName name p (fieldListToIdentList (Params ft)) :: ds)
                  | failure => failure
                  end
              end
          end
      | _ => mockMethods mockTypeName rest h
      end
  end.

(** The [ast.File] built for one interface, after
    [astutil.AddImport(fset, file, *importPath)]. *)
Definition mockFile (importPath pkgName : string) (iface : TypeSpec) (h : Heap) : Result File :=
  match ts_Type iface with
  | InterfaceType ms =>
      match mockFields ms with
      | Ok fields =>
          match mockMethods (mockTypeNameOf iface) ms h with
          | Ok meths =>
              Ok (AddImport importPath
                    (mkFile pkgName (TypeDecl (mockTypeNameOf iface) (StructType fields) :: meths)))
          | Error e => Error e
          | Panic msg => Panic msg
          end
      | Error e => Error e
      | Panic msg => Panic msg
      end
  | _ => Panic "interface conversion"
  end.

End Suffix.

(** ** Strings and paths *)

(** [strings.HasSuffix] *)
Definition HasSuffix (s suffix : string) : bool :=
  Nat.leb (String.length suffix) (String.length s)
  && String.eqb (substring (String.length s - String.length suffix) (String.length suffix) s) suffix.

(** [strings.TrimSuffix] *)
Definition TrimSuffix (s suffix : string) : string :=
  if HasSuffix s suffix
  then substring 0 (String.length s - String.length suffix) s
  else s.

(** [bytes.Replace(s, old, new, -1)] for a non-empty [old]: every
    non-overlapping occurrence, from the left.  [skip] counts the
    characters of a matched occurrence still to be dropped. *)
Fixpoint replaceFrom (old new : string) (skip : nat) (s : string) : string :=
  match s with
  | EmptyString => EmptyString
  | String c rest =>
      match skip with
      | S k => replaceFrom old new k rest
      | O =>
          if String.prefix old s
          then new +:+ replaceFrom old new (String.length old - 1) rest
          else String c (replaceFrom old new 0 rest)
      end
  end.

Definition Replace (s old new : string) : string := replaceFrom old new 0 s.

Definition nl : string := String (ascii_of_nat 10) EmptyString.

(** "Always put blank lines between funcs." *)
Definition blankLinesBetweenFuncs (src : string) : string :=
  Replace src ("}" +:+ nl +:+ "func") ("}" +:+ nl +:+ nl +:+ "func").

(** ** The process's surroundings *)

(** What a run can observe and change: the shared syntax store, the
    directories made, the files written, and the two output streams ([log]
    writes to standard error). *)
Record World : Type := mkWorld {
  heap : Heap;
  dirs : list string;
  files : gmap string string;
  stdout : string;
  stderr : string
}.

Inductive Writer : Type :=
| ToFile (path : string)
| ToStdout.

(** The flag [-w] and the collaborators outside the repository: the
    operating system's failures, [go/printer], [imports.Process],
    [path/filepath] and the [%q] verb. *)
Record Env : Type := mkEnv {
  writeFiles : bool;
  MkdirAll_err : string -> option string;
  Create_err : string -> option string;
  Write_err : Writer -> option string;
  Fprint : Heap -> File -> Result string;
  Process : string -> string -> Result string;
  Base : string -> string;
  Join : string -> string -> string;
  Quote : string -> string
}.

(** Effectful code: a state transformer over [World] that may return an
    error or panic; effects made before a failure stay. *)
Definition M (A : Type) : Type := World -> Result A * World.

Definition ret {A : Type} (a : A) : M A := fun w => (Ok a, w).

Definition bind {A B : Type} (c : M A) (k : A -> M B) : M B :=
  fun w =>
    match c w with
    | (Ok a, w') => k a w'
    | (Error e, w') => (Error e, w')
    | (Panic msg, w') => (Panic msg, w')
    end.

Notation "'bind!' x <-- c ;; k" := (bind c (fun x => k))
  (at level 10, x name, c at level 99, k at level 200, only parsing).

Definition liftResult {A : Type} (r : Result A) : M A := fun w => (r, w).

(** Run a computation on the syntax store alone. *)
Definition onHeap {A : Type} (c : Heap -> Result A * Heap) : M A :=
  fun w =>
    let '(r, h') := c (heap w) in
    (r, mkWorld h' (dirs w) (files w) (stdout w) (stderr w)).

Definition readHeap : M Heap := fun w => (Ok (heap w), w).

(** [os.MkdirAll(outDir, 0700)] *)
Definition MkdirAll (env : Env) (path : string) : M unit :=
  fun w =>
    match MkdirAll_err env path with
    | Some e => (Error e, w)
    | None => (Ok tt, mkWorld (heap w) (dirs w ++ [path]) (files w) (stdout w) (stderr w))
    end.

(** [log.Println] and [log.Printf]: one line on standard error (the flags
    are cleared by [log.SetFlags(0)], so no prefix). *)
Definition logLine (line : string) : M unit :=
  fun w => (Ok tt, mkWorld (heap w) (dirs w) (files w) (stdout w) (stderr w +:+ line +:+ nl)).

(** [os.Create]: the file exists and is empty afterwards. *)
Definition Create (env : Env) (path : string) : M Writer :=
  fun w =>
    match Create_err env path with
    | Some e => (Error e, w)
    | None => (Ok (ToFile path),
               mkWorld (heap w) (dirs w) (<[path := EmptyString]> (files w)) (stdout w) (stderr w))
    end.

(** [w.Write(src)]: the error it reports is its result value. *)
Definition Write (env : Env) (wr : Writer) (src : string) : M (option string) :=
  fun w =>
    match Write_err env wr with
    | Some e => (Ok (Some e), w)
    | None =>
        match wr with
        | ToFile path =>
            (Ok None,
             mkWorld (heap w) (dirs w)
               (<[path := default EmptyString (files w !! path) +:+ src]> (files w))
               (stdout w) (stderr w))
        | ToStdout =>
            (Ok None, mkWorld (heap w) (dirs w) (files w) (stdout w +:+ src) (stderr w))
        end
    end.

(** ** The output sink (the same code in both variants) *)

Definition outputPath (env : Env) (outDir : string) (iface : TypeSpec) : string :=
  Join env outDir (TrimSuffix (Base env (ts_Filename iface)) ".go" +:+ "_mock.go").

(** From [filename := ...] to [w.Write(src)]; the result of [w.Write] is
    dropped, as in the source. *)
Definition emit (env : Env) (outDir : string) (iface : TypeSpec) (file : File) : M unit :=
  let filename := outputPath env outDir iface in
  bind! _ <-- logLine ("# " +:+ filename) ;;
  bind! w <-- (if writeFiles env then Create env filename else ret ToStdout) ;;
  bind! h <-- readHeap ;;
  bind! buf <-- liftResult (Fprint env h file) ;;
  bind! src <-- liftResult (Process env filename (blankLinesBetweenFuncs buf)) ;;
  bind! _ <-- Write env w src ;;
  ret tt.

Module RegexRun.

Fixpoint writeLoop (env : Env) (outDir outPkg : string) (svcIfaces : list TypeSpec) : M unit :=
  match svcIfaces with
  | [] => ret tt
  | iface :: rest =>
      bind! file <-- onHeap (Regex.mockFile outPkg iface) ;;
      bind! _ <-- emit env outDir iface file ;;
      writeLoop env outDir outPkg rest
  end.

Definition writeMockImplFiles (env : Env) (outDir outPkg : string) (svcIfaces : list TypeSpec)
  : M unit :=
  bind! _ <-- MkdirAll env outDir ;;
  writeLoop env outDir outPkg svcIfaces.

End RegexRun.

Module SuffixRun.

Fixpoint writeLoop (env : Env) (importPath outDir pkgName : string) (svcIfaces : list TypeSpec)
  : M unit :=
  match svcIfaces with
  | [] => ret tt
  | iface :: rest =>
      bind! file <-- onHeap (fun h => (Suffix.mockFile importPath pkgName iface h, h)) ;;
      bind! _ <-- emit env outDir iface file ;;
      writeLoop env importPath outDir pkgName rest
  end.

Definition writeMockImplFiles (env : Env) (importPath outDir pkgName : string)
    (svcIfaces : list TypeSpec) : M unit :=
  bind! _ <-- MkdirAll env outDir ;;
  writeLoop env importPath outDir pkgName svcIfaces.

End SuffixRun.

(** ** The interface selector *)

Inductive Token : Type := IMPORT | CONST | TYPE | VAR.

(** The syntax tree as [ast.Walk] sees it: a node has a dynamic type and, in
    source order, the children [ast.Walk] visits below it.  The visitor
    inspects only [*ast.GenDecl] nodes, which carry their token and, for a
    type declaration, their type specs (for [Tok == token.TYPE] every spec
    is an [*ast.TypeSpec], as [go/ast] documents); the other kinds are
    named for reading. *)
Inductive Kind : Type :=
| KPackage
| KFile (Name : string)
| KGenDecl (Tok : Token) (Specs : list TypeSpec)
| KFuncDecl (Name : string)
| KBlockStmt
| KDeclStmt
| KFuncLit
| KValueSpec
| KOther (what : string).

#[warnings="-register-all"]
Inductive Node : Type :=
| mkNode (kind : Kind) (children : list Node).

Definition kind (n : Node) : Kind := match n with mkNode k _ => k end.
Definition children (n : Node) : list Node := match n with mkNode _ ch => ch end.

Record Package : Type := mkPackage {
  pkg_Name : string;
  pkg_Files : list Node
}.

Definition pkgNode (pkg : Package) : Node := mkNode KPackage (pkg_Files pkg).

(** [ast.Walk] with a visitor that threads a state: [v (Some n)] is
    [v.Visit(n)], returning whether to descend; after the children,
    [v.Visit(nil)]. *)
Fixpoint Walk {S : Type} (v : option Node -> S -> bool * S) (node : Node) (s : S) : S :=
  let '(descend, s1) := v (Some node) s in
  if descend
  then match node with
       | mkNode _ ch => snd (v None (fold_left (fun acc c => Walk v c acc) ch s1))
       end
  else s1.

Definition isInterfaceType (e : Expr) : bool :=
  match e with InterfaceType _ => true | _ => false end.

(** The loop over [node.Specs]. *)
Fixpoint appendMatching (sel : string -> bool) (specs ifaces : list TypeSpec) : list TypeSpec :=
  match specs with
  | [] => ifaces
  | tspec :: rest =>
      if isInterfaceType (ts_Type tspec)
      then if sel (ts_Name tspec)
           then appendMatching sel rest (ifaces ++ [tspec])
           else appendMatching sel rest ifaces
      else appendMatching sel rest ifaces
  end.

(** The closure passed to [ast.Walk]; [sel] is the name test. *)
Definition visitFn (sel : string -> bool) (node : option Node) (ifaces : list TypeSpec)
  : bool * list TypeSpec :=
  match node with
  | Some (mkNode (KGenDecl Tok Specs) _) =>
      (false, match Tok with TYPE => appendMatching sel Specs ifaces | _ => ifaces end)
  | _ => (true, ifaces)
  end.

(** [readIfaces]; [pat] is [pat.MatchString].  The error result is always
    [nil] and is left out. *)
Definition readIfaces (pkg : Package) (pat : string -> bool) : list TypeSpec :=
  Walk (visitFn pat) (pkgNode pkg) [].

(** [readServiceInterfaces] *)
Definition readServiceInterfaces (pkg : Package) : list TypeSpec :=
  Walk (visitFn (fun name => HasSuffix name "Service")) (pkgNode pkg) [].

(** ** The two [main] functions *)

Inductive Exit : Type :=
| Exit0
| Exit1
| Crashed (msg : string).

(** [log.Fatal(err)]: the message on standard error, then exit status 1. *)
Definition logFatal (msg : string) (w : World) : Exit * World :=
  (Exit1, snd (logLine msg w)).

Module RegexMain.

Definition warning (env : Env) (ifacePat : string) : string :=
  "warning: package has no interface types matching " +:+ Quote env ifacePat.

(** The loop over the parsed packages. *)
Fixpoint mainLoop (env : Env) (ifacePat outDir : string) (pat : string -> bool)
    (pkgs : list Package) (w : World) : Exit * World :=
  match pkgs with
  | [] => (Exit0, w)
  | pkg :: rest =>
      let ifaces := readIfaces pkg pat in
      if Nat.eqb (length ifaces) 0
      then mainLoop env ifacePat outDir pat rest (snd (logLine (warning env ifacePat) w))
      else match RegexRun.writeMockImplFiles env outDir (pkg_Name pkg) ifaces w with
           | (Ok _, w') => mainLoop env ifacePat outDir pat rest w'
           | (Error e, w') => logFatal e w'
           | (Panic msg, w') => (Crashed msg, w')
           end
  end.

(** [main], given what [regexp.Compile] and [parser.ParseDir] return. *)
Definition main (env : Env) (ifacePat outDir : string)
    (compiled : Result (string -> bool)) (parsed : Result (list Package)) (w : World)
  : Exit * World :=
  match compiled with
  | Error e => logFatal e w
  | Panic msg => (Crashed msg, w)
  | Ok pat =>
      match parsed with
      | Error e => logFatal e w
      | Panic msg => (Crashed msg, w)
      | Ok pkgs => mainLoop env ifacePat outDir pat pkgs w
      end
  end.

End RegexMain.

Module SuffixMain.

(** [main] and [parseSvcPkg], given the directory [build.Import] found and
    what [parser.ParseDir] returns for it. *)
Definition main (env : Env) (importPath pkgName outDir dir : string)
    (parsed : Result (list Package)) (w : World) : Exit * World :=
  if String.eqb importPath EmptyString
  then logFatal "Import path must be set" w
  else
    match parsed with
    | Error e => logFatal e w
    | Panic msg => (Crashed msg, w)
    | Ok pkgs =>
        match find (fun pkg => String.eqb (pkg_Name pkg) pkgName) pkgs with
        | None => logFatal ("No 'svc' package found in " +:+ dir +:+ ".") w
        | Some svcPkg =>
            match SuffixRun.writeMockImplFiles env importPath outDir (pkg_Name svcPkg)
                    (readServiceInterfaces svcPkg) w with
            | (Ok _, w') => (Exit0, w')
            | (Error e, w') => logFatal e w'
            | (Panic msg, w') => (Crashed msg, w')
            end
        end
    end.

End SuffixMain.

(** ** Fixtures: the interfaces of the specification's scenarios *)

(** [type Fetcher interface { Get(id string) (string, error) }] *)
Definition fetcherHeap : Heap :=
  {[ 0 := mkFuncType [mkField ["id"] (Ident "string")]
                     [mkField [] (Ident "string"); mkField [] (Ident "error")] ]}.
Definition fetcher : TypeSpec :=
  mkTypeSpec "Fetcher" (InterfaceType [mkField ["Get"] (FuncTypeAt 0)]) "fetch.go".

(** [type Checker interface { Check(bool) error }] *)
Definition checkerHeap : Heap :=
  {[ 0 := mkFuncType [mkField [] (Ident "bool")] [mkField [] (Ident "error")] ]}.
Definition checker : TypeSpec :=
  mkTypeSpec "Checker" (InterfaceType [mkField ["Check"] (FuncTypeAt 0)]) "check.go".

(** [type ReadChecker interface { Reader; Check(bool) error }]: the first
    entry embeds another interface. *)
Definition readChecker : TypeSpec :=
  mkTypeSpec "ReadChecker"
    (InterfaceType [mkField [] (Ident "Reader"); mkField ["Check"] (FuncTypeAt 0)]) "check.go".

(** A printer for the fixtures, standing in for [go/printer]: one
    declaration per line. *)
Definition commaSep (l : list string) : string :=
  match l with
  | [] => EmptyString
  | x :: rest => fold_left (fun acc y => acc +:+ ", " +:+ y) rest x
  end.

Fixpoint showExpr (fuel : nat) (h : Heap) (e : Expr) : string :=
  match fuel with
  | O => "?"
  | S fuel' =>
      let showGroup (f : Field) : string :=
        match Names f with
        | [] => showExpr fuel' h (Type_ f)
        | ns => commaSep ns +:+ " " +:+ showExpr fuel' h (Type_ f)
        end in
      match e with
      | Ident n => n
      | StarExpr x => "*" +:+ showExpr fuel' h x
      | SelectorExpr x sel => showExpr fuel' h x +:+ "." +:+ sel
      | Ellipsis x => "..." +:+ showExpr fuel' h x
      | ArrayType x => "[]" +:+ showExpr fuel' h x
      | MapType k v => "map[" +:+ showExpr fuel' h k +:+ "]" +:+ showExpr fuel' h v
      | FuncTypeAt p =>
          match h !! p with
          | None => "func?"
          | Some ft =>
              "(" +:+ commaSep (map showGroup (Params ft)) +:+ ")"
              +:+ match Results ft with
                  | [] => EmptyString
                  | [mkField [] t] => " " +:+ showExpr fuel' h t
                  | rs => " (" +:+ commaSep (map showGroup rs) +:+ ")"
                  end
          end
      | InterfaceType ms => "interface { " +:+ commaSep (map showGroup ms) +:+ " }"
      | StructType fs =>
          "struct { "
          +:+ commaSep (map (fun f => commaSep (Names f) +:+ " func" +:+ showExpr fuel' h (Type_ f)) fs)
          +:+ " }"
      | CallExpr f args => showExpr fuel' h f +:+ "(" +:+ commaSep (map (showExpr fuel' h) args) +:+ ")"
      end
  end.

Definition showDecl (h : Heap) (d : Decl) : string :=
  match d with
  | ImportDecl path => "import " +:+ path
  | TypeDecl name t => "type " +:+ name +:+ " " +:+ showExpr 8 h t
  | FuncDecl recv name p body =>
      "func (" +:+ commaSep (map (fun f => commaSep (Names f) +:+ " " +:+ showExpr 8 h (Type_ f)) recv)
      +:+ ") " +:+ name +:+ showExpr 8 h (FuncTypeAt p) +:+ " { "
      +:+ commaSep (map (fun st => match st with
                                   | ReturnStmt rs => "return " +:+ commaSep (map (showExpr 8 h) rs)
                                   end) body)
      +:+ " }"
  end.

Definition showFile (h : Heap) (f : File) : string :=
  "package " +:+ f_Name f +:+ nl
  +:+ fold_right (fun d acc => showDecl h d +:+ nl +:+ acc) EmptyString (f_Decls f).

(** The last element of a slash-separated path, for the fixtures'
    [filepath.Base]. *)
Fixpoint lastElem (acc : string) (path : string) : string :=
  match path with
  | EmptyString => acc
  | String c rest =>
      if Ascii.eqb c "/"%char then lastElem EmptyString rest
      else lastElem (acc +:+ String c EmptyString) rest
  end.

(** An environment in which only [w.Write] may fail. *)
Definition demoEnv (w : bool) (writeErr : Writer -> option string) : Env :=
  mkEnv w (fun _ => None) (fun _ => None) writeErr
        (fun h f => Ok (showFile h f)) (fun _ src => Ok src)
        (lastElem EmptyString) (fun d f => d +:+ "/" +:+ f)
        (fun s => "'" +:+ s +:+ "'").

Definition noWriteErr : Writer -> option string := fun _ => None.

Definition world0 (h : Heap) : World := mkWorld h [] ∅ EmptyString EmptyString.

(** The default pattern [.+Service] on identifiers: some character, then
    "Service", anywhere in the name. *)
Fixpoint contains (sub s : string) : bool :=
  String.prefix sub s
  || match s with
     | EmptyString => false
     | String _ rest => contains sub rest
     end.

Definition dotPlusService (name : string) : bool :=
  match name with
  | EmptyString => false
  | String _ rest => contains "Service" rest
  end.

(** [type FooService interface{}], once at top level of [a.go], once inside
    the body of [func f()]. *)
Definition fooService : TypeSpec := mkTypeSpec "FooService" (InterfaceType []) "a.go".

Definition pkgTopLevel : Package :=
  mkPackage "svc" [mkNode (KFile "a.go") [mkNode (KGenDecl TYPE [fooService]) []]].

Definition localTypeDecl : Node := mkNode (KGenDecl TYPE [fooService]) [].

Definition pkgLocal : Package :=
  mkPackage "svc"
    [mkNode (KFile "a.go")
       [mkNode (KFuncDecl "f")
          [mkNode KBlockStmt [mkNode KDeclStmt [localTypeDecl]]]]].

(** [var x = func() { type FooService interface{} }] *)
Definition pkgInsideVar : Package :=
  mkPackage "svc"
    [mkNode (KFile "a.go")
       [mkNode (KGenDecl VAR [])
          [mkNode KValueSpec
             [mkNode KFuncLit [mkNode KBlockStmt [mkNode KDeclStmt [localTypeDecl]]]]]]].

(** A package without interfaces. *)
Definition pkgEmpty : Package := mkPackage "util" [mkNode (KFile "u.go") []].

(** A package declaring [Checker] at top level. *)
Definition checkerSvc : TypeSpec :=
  mkTypeSpec "CheckerService" (InterfaceType [mkField ["Check"] (FuncTypeAt 0)]) "dir/check.go".
Definition fetcherSvc : TypeSpec :=
  mkTypeSpec "FetcherService" (InterfaceType [mkField ["Get"] (FuncTypeAt 1)]) "dir/fetch.go".
Definition svcHeap : Heap :=
  {[ 0 := mkFuncType [mkField [] (Ident "bool")] [mkField [] (Ident "error")];
     1 := mkFuncType [mkField ["id"] (Ident "string")]
                     [mkField [] (Ident "string"); mkField [] (Ident "error")] ]}.
Definition pkgSvc : Package :=
  mkPackage "svc"
    [mkNode (KFile "dir/check.go") [mkNode (KGenDecl TYPE [checkerSvc]) []];
     mkNode (KFile "dir/fetch.go") [mkNode (KGenDecl TYPE [fetcherSvc]) []]].

(** ** Vocabulary of the properties *)

(** The name of a method-list entry. *)
Definition methodName (m : Field) : string := default EmptyString (firstName m).

(** A method-list entry that is a method: a name, and a function type that
    is allocated in the store. *)
Definition isMethodAt (h : Heap) (m : Field) : bool :=
  match Type_ m, firstName m with
  | FuncTypeAt p, Some _ => match h !! p with Some _ => true | None => false end
  | _, _ => false
  end.

Definition isFuncEntry (m : Field) : bool :=
  match Type_ m with FuncTypeAt _ => true | _ => false end.

(** The struct field the generator is to make for a method. *)
Definition fieldOf (m : Field) : Field := mkField [methodName m +:+ "_"] (Type_ m).

(** Name and type of a method declaration. *)
Definition methodSig (d : Decl) : option (string * Expr) :=
  match d with
  | FuncDecl _ name p _ => Some (name, FuncTypeAt p)
  | _ => None
  end.

(** The fields of the struct a file declares first, and its methods. *)
Definition structFields (decls : list Decl) : option (list Field) :=
  match decls with
  | TypeDecl _ (StructType fs) :: _ => Some fs
  | _ => None
  end.

(** The argument list of a delegating method's call. *)
Definition callArgs (d : Decl) : option (list Expr) :=
  match d with
  | FuncDecl _ _ _ [ReturnStmt [CallExpr _ args]] => Some args
  | _ => None
  end.

(** All names a parameter list declares, flattened. *)
Definition declaredNames (fl : list Field) : list string := concat (map Names fl).

(** An environment whose disk is full when the first mock file is written. *)
Definition diskFull : Writer -> option string :=
  fun wr =>
    match wr with
    | ToFile path =>
        if String.eqb path "out/check_mock.go" then Some "no space left on device" else None
    | ToStdout => None
    end.

(** The log line naming an interface's output file. *)
Definition pathLine (env : Env) (outDir : string) (iface : TypeSpec) : string :=
  "# " +:+ outputPath env outDir iface +:+ nl.

(** The type specs declared at top level: those of the type declarations
    that are immediate children of the package's files. *)
Definition topLevelTypeSpecs (pkg : Package) : list TypeSpec :=
  flat_map
    (fun file =>
       flat_map (fun d => match kind d with
                          | KGenDecl TYPE specs => specs
                          | _ => []
                          end) (children file))
    (pkg_Files pkg).

Definition isGenDecl (n : Node) : bool :=
  match kind n with KGenDecl _ _ => true | _ => false end.

(** [Exposed n m]: [m] is [n] or lies below [n], and no node on the way
    from [n] down to [m]'s parent is a general declaration. *)
Inductive Exposed : Node -> Node -> Prop :=
| exposed_here (n : Node) : Exposed n n
| exposed_below (n c m : Node) :
    isGenDecl n = false -> In c (children n) -> Exposed c m -> Exposed n m.

(** The name test together with the test for an interface type. *)
Definition selects (sel : string -> bool) (t : TypeSpec) : bool :=
  isInterfaceType (ts_Type t) && sel (ts_Name t).

(** What the walk is to collect below a node, read off the tree. *)
Fixpoint candidates (sel : string -> bool) (n : Node) : list TypeSpec :=
  match n with
  | mkNode (KGenDecl TYPE specs) _ => List.filter (selects sel) specs
  | mkNode (KGenDecl _ _) _ => []
  | mkNode _ ch => flat_map (candidates sel) ch
  end.

(** Rendering as [emit] does it: [printer.Fprint], the blank-line pass,
    [imports.Process]. *)
Definition rendered (env : Env) (outDir : string) (iface : TypeSpec) (h : gmap nat FuncType)
    (file : File) : Result string :=
  match Fprint env h file with
  | Ok buf => Process env (outputPath env outDir iface) (blankLinesBetweenFuncs buf)
  | Error e => Error e
  | Panic msg => Panic msg
  end.

(** [n] copies of a log line. *)
Fixpoint repeatLine (n : nat) (line : string) : string :=
  match n with
  | O => EmptyString
  | S k => line +:+ nl +:+ repeatLine k line
  end.

(** Environments of the examples in which one step fails. *)
Definition noImportsEnv : Env :=
  mkEnv true (fun _ => None) (fun _ => None) noWriteErr
        (fun h f => Ok (showFile h f)) (fun _ _ => Error "cannot find package")
        (lastElem EmptyString) (fun d f => d +:+ "/" +:+ f) (fun s => s).

Definition noCreateEnv : Env :=
  mkEnv true (fun _ => None) (fun _ => Some "permission denied") noWriteErr
        (fun h f => Ok (showFile h f)) (fun _ src => Ok src)
        (lastElem EmptyString) (fun d f => d +:+ "/" +:+ f) (fun s => s).

Definition noMkdirEnv : Env :=
  mkEnv false (fun _ => Some "read-only file system") (fun _ => None) noWriteErr
        (fun h f => Ok (showFile h f)) (fun _ src => Ok src)
        (lastElem EmptyString) (fun d f => d +:+ "/" +:+ f) (fun s => s).

Definition ifaceA : TypeSpec := mkTypeSpec "A" (InterfaceType []) "dir/x.go".
Definition ifaceB : TypeSpec := mkTypeSpec "B" (InterfaceType []) "dir/x.go".
Definition fileA : File := mkFile "mocks" [TypeDecl "MockA" (StructType [])].
Definition fileB : File := mkFile "mocks" [TypeDecl "MockB" (StructType [])].

(** A disk on which the fetcher's mock file exists already. *)
Definition staleWorld : World :=
  mkWorld fetcherHeap [] {[ "out/fetch_mock.go" := "stale" ]} EmptyString EmptyString.

Definition fetcherStruct : File :=
  mkFile "mocks" [TypeDecl "MockFetcher" (StructType [mkField ["Get_"] (FuncTypeAt 0)])].

(** The function type a method's type points to once its names are
    synthesized. *)
Definition synthType (ft : FuncType) : FuncType :=
  mkFuncType (synthesizeFieldNamesIfMissing (Params ft)) (Results ft).

(** The address of a method's function type. *)
Definition methodLoc (m : Field) : nat :=
  match Type_ m with FuncTypeAt p => p | _ => 0 end.

(** Whether [p] is the address of the function type of one of the entries. *)
Definition isMethodLoc (ms : list Field) (p : nat) : bool :=
  existsb (fun m => match Type_ m with FuncTypeAt q => Nat.eqb q p | _ => false end) ms.

(** The parameter list of a method as the store [h] holds it. *)
Definition paramsAt (h : gmap nat FuncType) (m : Field) : list Field :=
  match h !! methodLoc m with Some ft => Params ft | None => [] end.

(** The delegating method expected for method [m] of the interface named
    [ifaceName], written out: receiver [s *Mock<ifaceName>], the method's
    name and function type, and the body [return s.<name>_(<names>)] over
    the names its parameter list declares in [h]. *)
Definition delegatingMethod (ifaceName : string) (h : gmap nat FuncType) (m : Field) : Decl :=
  FuncDecl [mkField ["s"] (StarExpr (Ident ("Mock" +:+ ifaceName)))]
    (methodName m) (methodLoc m)
    [ReturnStmt
       [CallExpr (SelectorExpr (Ident "s") (methodName m +:+ "_"))
          (map Ident (declaredNames (paramsAt h m)))]].

(** [type Store interface { Get(id string) (string, error); Check(bool) error }] *)
Definition storeIface : TypeSpec :=
  mkTypeSpec "Store"
    (InterfaceType [mkField ["Get"] (FuncTypeAt 1); mkField ["Check"] (FuncTypeAt 0)]) "store.go".

(** An interface whose entries are all function types, the second one
    without a name: [interface { Get(id string) (string, error); func(bool) error }]. *)
Definition typeElemIface : TypeSpec :=
  mkTypeSpec "Elem"
    (InterfaceType [mkField ["Get"] (FuncTypeAt 1); mkField [] (FuncTypeAt 0)]) "elem.go".

(** The world after a package without matching interfaces was met in [w]. *)
Definition warned (env : Env) (ifacePat : string) (w : World) : World :=
  mkWorld (heap w) (dirs w) (files w) (stdout w)
          (stderr w +:+ "warning: package has no interface types matching "
           +:+ Quote env ifacePat +:+ nl).

(** ** Examples *)

Example synth_demo :
  synthesizeFieldNamesIfMissing
    [mkField [] (Ident "string"); mkField ["a"; "b"] (Ident "int"); mkField [] (Ident "bool")]
  = [mkField ["v0"] (Ident "string"); mkField ["a"; "b"] (Ident "int"); mkField ["v2"] (Ident "bool")].
Proof. vm_compute. reflexivity. Qed.

Example fetcher_regex :
  fst (Regex.mockFile "mocks" fetcher fetcherHeap)
  = Ok (mkFile "mocks"
          [TypeDecl "MockFetcher" (StructType [mkField ["Get_"] (FuncTypeAt 0)]);
           FuncDecl [mkField ["s"] (StarExpr (Ident "MockFetcher"))] "Get" 0
             [ReturnStmt [CallExpr (SelectorExpr (Ident "s") "Get_") [Ident "id"]]]]).
Proof. vm_compute. reflexivity. Qed.

Example checker_regex :
  fst (Regex.mockFile "mocks" checker checkerHeap)
  = Ok (mkFile "mocks"
          [TypeDecl "MockChecker" (StructType [mkField ["Check_"] (FuncTypeAt 0)]);
           FuncDecl [mkField ["s"] (StarExpr (Ident "MockChecker"))] "Check" 0
             [ReturnStmt [CallExpr (SelectorExpr (Ident "s") "Check_") [Ident "v0"]]]]).
Proof. vm_compute. reflexivity. Qed.

Example checker_suffix :
  Suffix.mockFile "example.org/svc" "svc" checker checkerHeap
  = Ok (mkFile "svc"
          [ImportDecl "example.org/svc";
           TypeDecl "MockChecker" (StructType [mkField ["Check_"] (FuncTypeAt 0)]);
           FuncDecl [mkField ["s"] (StarExpr (Ident "MockChecker"))] "Check" 0
             [ReturnStmt [CallExpr (SelectorExpr (Ident "s") "Check_") []]]]).
Proof. vm_compute. reflexivity. Qed.

(** ** Name synthesis and forwarding *)

Lemma synthesizeFrom_lookup (fl : list Field) (k i : nat) (f : Field) :
  fl !! i = Some f ->
  synthesizeFrom k fl !! i
  = Some (if Nat.eqb (length (Names f)) 0 then mkField [synthName (k + i)] (Type_ f) else f).
Proof.
  revert k i. induction fl as [|g fl IH]; intros k i Hi; [done|].
  destruct i as [|i]; simpl in *.
  - injection Hi as ->. by rewrite Nat.add_0_r.
  - rewrite (IH (S k) i Hi). by replace (S k + i) with (k + S i) by lia.
Qed.

Lemma synthesizeFrom_length (fl : list Field) (k : nat) :
  length (synthesizeFrom k fl) = length fl.
Proof. revert k. induction fl as [|g fl IH]; intros k; simpl; [done|]. by rewrite IH. Qed.

Lemma synthesizeFrom_named (fl : list Field) (k : nat) :
  Forall (fun f => Names f <> []) (synthesizeFrom k fl).
Proof.
  revert k. induction fl as [|g fl IH]; intros k; simpl; constructor; [|apply IH].
  destruct (Names g) eqn:E; simpl; [done|]. by rewrite E.
Qed.

Lemma synthesizeFrom_id (fl : list Field) (k : nat) :
  Forall (fun f => Names f <> []) fl -> synthesizeFrom k fl = fl.
Proof.
  intros H. revert k. induction H as [|g fl Hg _ IH]; intros k; simpl; [done|].
  rewrite IH. destruct (Names g); [done|reflexivity].
Qed.

Lemma synthesize_idempotent (fl : list Field) :
  synthesizeFieldNamesIfMissing (synthesizeFieldNamesIfMissing fl)
  = synthesizeFieldNamesIfMissing fl.
Proof. apply synthesizeFrom_id, synthesizeFrom_named. Qed.

Lemma fieldListToIdentList_names (fl : list Field) :
  fieldListToIdentList fl = map Ident (declaredNames fl).
Proof.
  unfold declaredNames. induction fl as [|f fl IH]; simpl; [done|].
  by rewrite IH, map_app.
Qed.


(** ** The mock synthesizer *)

Lemma isMethodAt_inv (h : Heap) (m : Field) :
  isMethodAt h m = true ->
  exists p name ft, Type_ m = FuncTypeAt p /\ firstName m = Some name /\ h !! p = Some ft.
Proof.
  unfold isMethodAt. destruct (Type_ m); try discriminate.
  destruct (firstName m); try discriminate.
  destruct (h !! p) eqn:E; try discriminate. eauto 6.
Qed.

Lemma isMethodAt_insert (h : Heap) (m : Field) (q : loc) (ft : FuncType) :
  isMethodAt h m = true -> isMethodAt (<[q := ft]> h) m = true.
Proof.
  intros (p & name & g & Ht & Hn & Hp)%isMethodAt_inv. unfold isMethodAt.
  rewrite Ht, Hn. destruct (decide (q = p)) as [->|Hne].
  - by rewrite lookup_insert_eq.
  - by rewrite lookup_insert_ne, Hp.
Qed.

Lemma mockFields_methods (h : Heap) (ms : list Field) :
  Forall (fun m => isMethodAt h m = true) ms -> mockFields ms = Ok (map fieldOf ms).
Proof.
  induction 1 as [|m ms Hm _ IH]; simpl; [done|].
  destruct (isMethodAt_inv _ _ Hm) as (p & name & ft & Ht & Hn & _).
  rewrite Ht, Hn, IH. unfold fieldOf, methodName. by rewrite ?Hn, ?Ht.
Qed.

Lemma Regex_mockMethods_methods (mock : string) (ms : list Field) (h : Heap) :
  Forall (fun m => isMethodAt h m = true) ms ->
  exists meths h',
    Regex.mockMethods mock ms h = (Ok meths, h')
    /\ map methodSig meths = map (fun m => Some (methodName m, Type_ m)) ms.
Proof.
  revert h. induction ms as [|m ms IH]; intros h Hall; simpl.
  - by exists [], h.
  - apply Forall_cons in Hall as [Hm Hall].
    destruct (isMethodAt_inv _ _ Hm) as (p & name & ft & Ht & Hn & Hp).
    rewrite Ht, Hp, Hn.
    destruct (IH (<[p := mkFuncType (synthesizeFieldNamesIfMissing (Params ft)) (Results ft)]> h))
      as (meths & h' & -> & Hsig).
    { eapply Forall_impl; [exact Hall|]. intros x. apply isMethodAt_insert. }
    eexists _, h'. split; [reflexivity|]. simpl. rewrite Hsig.
    unfold methodName. by rewrite ?Hn, ?Ht.
Qed.

Lemma Suffix_mockMethods_methods (mock : string) (ms : list Field) (h : Heap) :
  Forall (fun m => isMethodAt h m = true) ms ->
  exists meths,
    Suffix.mockMethods mock ms h = Ok meths
    /\ map methodSig meths = map (fun m => Some (methodName m, Type_ m)) ms.
Proof.
  induction 1 as [|m ms Hm _ (meths & IH & Hsig)]; simpl.
  - by exists [].
  - destruct (isMethodAt_inv _ _ Hm) as (p & name & ft & Ht & Hn & Hp).
    rewrite Ht, Hp, Hn, IH. eexists. split; [reflexivity|]. simpl. rewrite Hsig.
    unfold methodName. by rewrite ?Hn, ?Ht.
Qed.

(** A parameter list whose groups are all named is a fixed point of the
    synthesis, so a function type once rewritten stays as it is while the
    remaining methods are built. *)
Lemma Regex_mockMethods_stable (mock : string) (ms : list Field) (h h' : Heap)
    (r : Result (list Decl)) (p : loc) (ft : FuncType) :
  Regex.mockMethods mock ms h = (r, h') ->
  h !! p = Some ft ->
  Forall (fun f => Names f <> []) (Params ft) ->
  h' !! p = Some ft.
Proof.
  revert h r. induction ms as [|m ms IH]; intros h r Hrun Hp Hnamed; simpl in Hrun.
  - by injection Hrun as _ <-.
  - destruct (Type_ m) as [| | | | | |q| | |]; try (by eapply IH).
    destruct (h !! q) as [g|] eqn:Hq; [|by injection Hrun as _ <-].
    assert (Hp' : <[q := mkFuncType (synthesizeFieldNamesIfMissing (Params g)) (Results g)]> h !! p
                  = Some ft).
    { destruct (decide (q = p)) as [->|Hne]; [|by rewrite lookup_insert_ne].
      rewrite lookup_insert_eq. rewrite Hp in Hq. injection Hq as <-.
      unfold synthesizeFieldNamesIfMissing. rewrite synthesizeFrom_id by done.
      by destruct ft. }
    destruct (firstName m); [|by injection Hrun as _ <-].
    destruct (Regex.mockMethods mock ms _) as [[ds| |] h2] eqn:Hrest;
      injection Hrun as _ <-; by eapply IH.
Qed.

(** The regular-expression variant forwards completely: every method it
    builds calls its field with exactly the names its (shared, rewritten)
    parameter list declares, in order, and every group there has a name. *)
Lemma Regex_mockMethods_forward (mock : string) (ms : list Field) (h h' : Heap)
    (meths : list Decl) :
  Regex.mockMethods mock ms h = (Ok meths, h') ->
  Forall (fun d => exists name p ft,
              d = delegate mock name p (map Ident (declaredNames (Params ft)))
              /\ h' !! p = Some ft
              /\ Forall (fun f => Names f <> []) (Params ft)) meths.
Proof.
  revert h meths. induction ms as [|m ms IH]; intros h meths Hrun; simpl in Hrun.
  - injection Hrun as <- _. constructor.
  - destruct (Type_ m) as [| | | | | |q| | |]; try (by eapply IH).
    destruct (h !! q) as [g|] eqn:Hq; [|discriminate].
    destruct (firstName m) as [name|]; [|discriminate].
    destruct (Regex.mockMethods mock ms _) as [[ds| |] h2] eqn:Hrest; try discriminate.
    injection Hrun as <- <-. constructor; [|by eapply IH].
    exists name, q, (mkFuncType (synthesizeFieldNamesIfMissing (Params g)) (Results g)).
    split; [by rewrite <- fieldListToIdentList_names|]. split.
    + eapply Regex_mockMethods_stable; [exact Hrest|by rewrite lookup_insert_eq|].
      apply synthesizeFrom_named.
    + apply synthesizeFrom_named.
Qed.

(** The fixed-suffix variant forwards the names as declared: a group
    without names contributes no argument. *)
Lemma Suffix_mockMethods_forward (mock : string) (ms : list Field) (h : Heap)
    (meths : list Decl) :
  Suffix.mockMethods mock ms h = Ok meths ->
  Forall (fun d => exists name p ft,
              d = delegate mock name p (map Ident (declaredNames (Params ft)))
              /\ h !! p = Some ft) meths.
Proof.
  revert meths. induction ms as [|m ms IH]; intros meths Hrun; simpl in Hrun.
  - injection Hrun as <-. constructor.
  - destruct (Type_ m) as [| | | | | |q| | |]; try (by eapply IH).
    destruct (h !! q) as [g|] eqn:Hq; [|discriminate].
    destruct (firstName m) as [name|]; [|discriminate].
    destruct (Suffix.mockMethods mock ms h) as [ds| |] eqn:Hrest; try discriminate.
    injection Hrun as <-. constructor; [|by eapply IH].
    exists name, q, g. by rewrite <- fieldListToIdentList_names.
Qed.

(** C2, at [Check(bool) error] in the fixed-suffix variant: the method
    declares one parameter and the delegating call forwards none. *)
Theorem C2_suffix_variant_forwards_no_unnamed_parameter :
  Suffix.mockMethods "MockChecker" [mkField ["Check"] (FuncTypeAt 0)] checkerHeap
  = Ok [FuncDecl [mkField ["s"] (StarExpr (Ident "MockChecker"))] "Check" 0
          [ReturnStmt [CallExpr (SelectorExpr (Ident "s") "Check_") []]]]
  /\ checkerHeap !! 0 = Some (mkFuncType [mkField [] (Ident "bool")] [mkField [] (Ident "error")])
  /\ showDecl checkerHeap
       (FuncDecl [mkField ["s"] (StarExpr (Ident "MockChecker"))] "Check" 0
          [ReturnStmt [CallExpr (SelectorExpr (Ident "s") "Check_") []]])
     = "func (s *MockChecker) Check(bool) error { return s.Check_() }".
Proof. repeat split; vm_compute; reflexivity. Qed.

(** Where every parameter group is named the two variants build the same
    struct and the same methods and leave the store as it was; the
    fixed-suffix variant's file begins with the added import. *)
Lemma Regex_mockMethods_named (mock : string) (ms : list Field) (h : Heap) :
  (forall p ft, h !! p = Some ft -> Forall (fun f => Names f <> []) (Params ft)) ->
  Regex.mockMethods mock ms h
  = (Suffix.mockMethods mock ms h,
     match Suffix.mockMethods mock ms h with
     | Ok _ => h
     | _ => snd (Regex.mockMethods mock ms h)
     end).
Proof.
  intros Hnamed. induction ms as [|m ms IH]; simpl; [done|].
  destruct (Type_ m) as [| | | | | |q| | |]; try exact IH.
  destruct (h !! q) as [g|] eqn:Hq; [|done].
  assert (Hid : <[q := mkFuncType (synthesizeFieldNamesIfMissing (Params g)) (Results g)]> h = h).
  { unfold synthesizeFieldNamesIfMissing. rewrite synthesizeFrom_id by by eapply Hnamed.
    destruct g. by apply insert_id. }
  rewrite Hid. destruct (firstName m) as [name|]; [|done].
  rewrite IH. unfold synthesizeFieldNamesIfMissing. simpl.
  rewrite synthesizeFrom_id by by eapply Hnamed.
  destruct (Suffix.mockMethods mock ms h); simpl; try done.
  all: by rewrite IH.
Qed.

Lemma variants_agree_on_named_parameters
    (importPath pkgName : string) (iface : TypeSpec) (h : Heap) (f : File) :
  (forall p ft, h !! p = Some ft -> Forall (fun f => Names f <> []) (Params ft)) ->
  Regex.mockFile pkgName iface h = (Ok f, h)
  <-> Suffix.mockFile importPath pkgName iface h = Ok (AddImport importPath f).
Proof.
  intros Hnamed. unfold Regex.mockFile, Suffix.mockFile.
  destruct (ts_Type iface); try (split; discriminate).
  destruct (mockFields Methods); try (split; discriminate).
  rewrite (Regex_mockMethods_named _ _ _ Hnamed).
  destruct (Suffix.mockMethods _ Methods h); try (split; discriminate).
  unfold AddImport. simpl. split.
  - by intros [= <-].
  - destruct f as [n ds]. simpl. by intros [= <- <-].
Qed.

(** C4, at [Check(bool) error]: the two variants build different
    delegating methods, and the regular-expression variant also rewrites
    the shared parameter list. *)
Theorem C4_variants_differ_on_unnamed_parameter :
  Regex.mockFile "svc" checker checkerHeap
  = (Ok (mkFile "svc"
           [TypeDecl "MockChecker" (StructType [mkField ["Check_"] (FuncTypeAt 0)]);
            FuncDecl [mkField ["s"] (StarExpr (Ident "MockChecker"))] "Check" 0
              [ReturnStmt [CallExpr (SelectorExpr (Ident "s") "Check_") [Ident "v0"]]]]),
     {[ 0 := mkFuncType [mkField ["v0"] (Ident "bool")] [mkField [] (Ident "error")] ]})
  /\ Suffix.mockFile "example.org/svc" "svc" checker checkerHeap
     = Ok (mkFile "svc"
             [ImportDecl "example.org/svc";
              TypeDecl "MockChecker" (StructType [mkField ["Check_"] (FuncTypeAt 0)]);
              FuncDecl [mkField ["s"] (StarExpr (Ident "MockChecker"))] "Check" 0
                [ReturnStmt [CallExpr (SelectorExpr (Ident "s") "Check_") []]]]).
Proof. split; vm_compute; reflexivity. Qed.

(** ** Entries that are not function types *)

Lemma mockFields_skip (ms : list Field) :
  mockFields ms = mockFields (List.filter isFuncEntry ms).
Proof.
  induction ms as [|m ms IH]; simpl; [done|]. unfold isFuncEntry.
  destruct (Type_ m) eqn:Ht; simpl; rewrite ?Ht; try exact IH.
  by rewrite IH.
Qed.

Lemma Regex_mockMethods_skip (mock : string) (ms : list Field) (h : Heap) :
  Regex.mockMethods mock ms h = Regex.mockMethods mock (List.filter isFuncEntry ms) h.
Proof.
  revert h. induction ms as [|m ms IH]; intros h; simpl; [done|]. unfold isFuncEntry.
  destruct (Type_ m) eqn:Ht; simpl; rewrite ?Ht; try apply IH.
  destruct (h !! p); [|done]. destruct (firstName m); [|done]. by rewrite IH.
Qed.

Lemma Suffix_mockMethods_skip (mock : string) (ms : list Field) (h : Heap) :
  Suffix.mockMethods mock ms h = Suffix.mockMethods mock (List.filter isFuncEntry ms) h.
Proof.
  induction ms as [|m ms IH]; simpl; [done|]. unfold isFuncEntry.
  destruct (Type_ m) eqn:Ht; simpl; rewrite ?Ht; try apply IH.
  destruct (h !! p); [|done]. destruct (firstName m); [|done]. by rewrite IH.
Qed.

Lemma mockFields_no_error (ms : list Field) (e : string) : mockFields ms <> Error e.
Proof.
  induction ms as [|m ms IH]; simpl; [done|].
  destruct (Type_ m); try exact IH.
  destruct (firstName m); [|done]. by destruct (mockFields ms).
Qed.

Lemma Regex_mockMethods_no_error (mock : string) (ms : list Field) (h : Heap) (e : string) :
  fst (Regex.mockMethods mock ms h) <> Error e.
Proof.
  revert h. induction ms as [|m ms IH]; intros h; simpl; [done|].
  destruct (Type_ m); try apply IH.
  destruct (h !! p); [|done]. destruct (firstName m); [|done].
  specialize (IH (<[p := mkFuncType (synthesizeFieldNamesIfMissing (Params f)) (Results f)]> h)).
  by destruct (Regex.mockMethods mock ms _) as [[| |] ?].
Qed.

Lemma Suffix_mockMethods_no_error (mock : string) (ms : list Field) (h : Heap) (e : string) :
  Suffix.mockMethods mock ms h <> Error e.
Proof.
  induction ms as [|m ms IH]; simpl; [done|].
  destruct (Type_ m); try apply IH.
  destruct (h !! p); [|done]. destruct (firstName m); [|done].
  by destruct (Suffix.mockMethods mock ms h).
Qed.

(** C5 as stated fails: with the embedded interface [Reader] in its method
    list, [ReadChecker] is synthesized without any error, from its one
    method. *)
Lemma C5_embedded_entry_raises_no_error :
  fst (Regex.mockFile "mocks" readChecker checkerHeap)
  = Ok (mkFile "mocks"
          [TypeDecl "MockReadChecker" (StructType [mkField ["Check_"] (FuncTypeAt 0)]);
           FuncDecl [mkField ["s"] (StarExpr (Ident "MockReadChecker"))] "Check" 0
             [ReturnStmt [CallExpr (SelectorExpr (Ident "s") "Check_") [Ident "v0"]]]])
  /\ Suffix.mockFile "example.org/svc" "svc" readChecker checkerHeap
     = Ok (mkFile "svc"
             [ImportDecl "example.org/svc";
              TypeDecl "MockReadChecker" (StructType [mkField ["Check_"] (FuncTypeAt 0)]);
              FuncDecl [mkField ["s"] (StarExpr (Ident "MockReadChecker"))] "Check" 0
                [ReturnStmt [CallExpr (SelectorExpr (Ident "s") "Check_") []]]]).
Proof. split; vm_compute; reflexivity. Qed.

(** C5, amended: a method-list entry whose type is not a function type is
    passed over; fields and methods are those of the remaining entries, and
    building a mock file never returns an error. *)
Theorem C5_non_function_entries_are_passed_over
    (mock outPkg importPath : string) (iface : TypeSpec) (ms : list Field) (h : Heap)
    (e : string) :
  mockFields ms = mockFields (List.filter isFuncEntry ms)
  /\ Regex.mockMethods mock ms h = Regex.mockMethods mock (List.filter isFuncEntry ms) h
  /\ Suffix.mockMethods mock ms h = Suffix.mockMethods mock (List.filter isFuncEntry ms) h
  /\ fst (Regex.mockFile outPkg iface h) <> Error e
  /\ Suffix.mockFile importPath outPkg iface h <> Error e.
Proof.
  split; [apply mockFields_skip|]. split; [apply Regex_mockMethods_skip|].
  split; [apply Suffix_mockMethods_skip|]. split.
  - unfold Regex.mockFile. destruct (ts_Type iface); try done.
    pose proof (mockFields_no_error Methods e) as Hf.
    destruct (mockFields Methods); simpl; try done; try (intros [= ->]; by apply Hf).
    pose proof (Regex_mockMethods_no_error (mockTypeNameOf iface) Methods h e) as Hm.
    destruct (Regex.mockMethods _ Methods h) as [[| |] ?]; simpl in *;
      try done; try (intros [= ->]; by apply Hm).
  - unfold Suffix.mockFile. destruct (ts_Type iface); try done.
    pose proof (mockFields_no_error Methods e) as Hf.
    destruct (mockFields Methods); simpl; try done; try (intros [= ->]; by apply Hf).
    pose proof (Suffix_mockMethods_no_error (mockTypeNameOf iface) Methods h e) as Hm.
    destruct (Suffix.mockMethods _ Methods h); simpl in *;
      try done; try (intros [= ->]; by apply Hm).
Qed.

(** ** The output sink *)

Ltac run_emit :=
  unfold emit, bind, logLine, readHeap, liftResult, Create, Write, ret; simpl;
  repeat case_match; simplify_eq; simpl; try done.

Lemma emit_dirs (env : Env) (outDir : string) (iface : TypeSpec) (file : File) (w : World) :
  dirs (snd (emit env outDir iface file w)) = dirs w.
Proof. run_emit. Qed.

Lemma emit_heap (env : Env) (outDir : string) (iface : TypeSpec) (file : File) (w : World) :
  heap (snd (emit env outDir iface file w)) = heap w.
Proof. run_emit. Qed.

(** The path line goes to the log in either mode. *)
Lemma emit_logs_path (env : Env) (outDir : string) (iface : TypeSpec) (file : File) (w : World) :
  stderr (snd (emit env outDir iface file w)) = stderr w +:+ pathLine env outDir iface.
Proof. unfold pathLine. run_emit. Qed.

Lemma emit_preview_files (env : Env) (outDir : string) (iface : TypeSpec) (file : File)
    (w : World) :
  writeFiles env = false -> files (snd (emit env outDir iface file w)) = files w.
Proof. intros Hw. unfold emit. rewrite Hw. run_emit. Qed.

Lemma onHeap_frame {A : Type} (c : gmap nat FuncType -> Result A * gmap nat FuncType) (w : World) :
  dirs (snd (onHeap c w)) = dirs w
  /\ files (snd (onHeap c w)) = files w
  /\ stdout (snd (onHeap c w)) = stdout w
  /\ stderr (snd (onHeap c w)) = stderr w.
Proof. unfold onHeap. by destruct (c (heap w)). Qed.

Lemma Regex_writeLoop_dirs (env : Env) (outDir outPkg : string) (ifaces : list TypeSpec)
    (w : World) :
  dirs (snd (RegexRun.writeLoop env outDir outPkg ifaces w)) = dirs w.
Proof.
  revert w. induction ifaces as [|iface rest IH]; intros w; simpl; [done|].
  unfold bind at 1.
  destruct (onHeap _ w) as [[file| |] w1] eqn:E1; simpl;
    pose proof (onHeap_frame (Regex.mockFile outPkg iface) w) as (Hd & _);
    rewrite E1 in Hd; simpl in Hd; try done.
  unfold bind at 1.
  pose proof (emit_dirs env outDir iface file w1) as He.
  destruct (emit env outDir iface file w1) as [[[]| |] w2]; simpl in *; try congruence;
    rewrite IH; congruence.
Qed.

Lemma Regex_writeLoop_preview_files (env : Env) (outDir outPkg : string)
    (ifaces : list TypeSpec) (w : World) :
  writeFiles env = false ->
  files (snd (RegexRun.writeLoop env outDir outPkg ifaces w)) = files w.
Proof.
  intros Hw. revert w. induction ifaces as [|iface rest IH]; intros w; simpl; [done|].
  unfold bind at 1.
  destruct (onHeap _ w) as [[file| |] w1] eqn:E1; simpl;
    pose proof (onHeap_frame (Regex.mockFile outPkg iface) w) as (_ & Hf & _);
    rewrite E1 in Hf; simpl in Hf; try done.
  unfold bind at 1.
  pose proof (emit_preview_files env outDir iface file w1 Hw) as He.
  destruct (emit env outDir iface file w1) as [[[]| |] w2]; simpl in *; try congruence;
    rewrite IH; congruence.
Qed.

Lemma Suffix_writeLoop_dirs (env : Env) (importPath outDir pkgName : string)
    (ifaces : list TypeSpec) (w : World) :
  dirs (snd (SuffixRun.writeLoop env importPath outDir pkgName ifaces w)) = dirs w.
Proof.
  revert w. induction ifaces as [|iface rest IH]; intros w; simpl; [done|].
  unfold bind at 1.
  destruct (onHeap _ w) as [[file| |] w1] eqn:E1; simpl;
    pose proof (onHeap_frame
                  (fun h => (Suffix.mockFile importPath pkgName iface h, h)) w) as (Hd & _);
    rewrite E1 in Hd; simpl in Hd; try done.
  unfold bind at 1.
  pose proof (emit_dirs env outDir iface file w1) as He.
  destruct (emit env outDir iface file w1) as [[[]| |] w2]; simpl in *; try congruence;
    rewrite IH; congruence.
Qed.

Lemma Suffix_writeLoop_preview_files (env : Env) (importPath outDir pkgName : string)
    (ifaces : list TypeSpec) (w : World) :
  writeFiles env = false ->
  files (snd (SuffixRun.writeLoop env importPath outDir pkgName ifaces w)) = files w.
Proof.
  intros Hw. revert w. induction ifaces as [|iface rest IH]; intros w; simpl; [done|].
  unfold bind at 1.
  destruct (onHeap _ w) as [[file| |] w1] eqn:E1; simpl;
    pose proof (onHeap_frame
                  (fun h => (Suffix.mockFile importPath pkgName iface h, h)) w) as (_ & Hf & _);
    rewrite E1 in Hf; simpl in Hf; try done.
  unfold bind at 1.
  pose proof (emit_preview_files env outDir iface file w1 Hw) as He.
  destruct (emit env outDir iface file w1) as [[[]| |] w2]; simpl in *; try congruence;
    rewrite IH; congruence.
Qed.

(** C10: whenever [MkdirAll] succeeds, a generation pass of either variant
    leaves the output directory made and no other directory, with or
    without [-w]; without [-w] the files on disk are those from before. *)
Theorem C10_output_directory_made_in_both_modes
    (env : Env) (importPath outDir outPkg : string) (ifaces : list TypeSpec) (w : World) :
  MkdirAll_err env outDir = None ->
  dirs (snd (RegexRun.writeMockImplFiles env outDir outPkg ifaces w)) = dirs w ++ [outDir]
  /\ dirs (snd (SuffixRun.writeMockImplFiles env importPath outDir outPkg ifaces w))
     = dirs w ++ [outDir]
  /\ (writeFiles env = false ->
      files (snd (RegexRun.writeMockImplFiles env outDir outPkg ifaces w)) = files w
      /\ files (snd (SuffixRun.writeMockImplFiles env importPath outDir outPkg ifaces w))
         = files w).
Proof.
  intros Hmk.
  unfold RegexRun.writeMockImplFiles, SuffixRun.writeMockImplFiles, bind, MkdirAll.
  rewrite Hmk. split; [|split; [|intros Hw; split]].
  - by rewrite Regex_writeLoop_dirs.
  - by rewrite Suffix_writeLoop_dirs.
  - by rewrite Regex_writeLoop_preview_files.
  - by rewrite Suffix_writeLoop_preview_files.
Qed.

Lemma C10_witness :
  dirs (snd (RegexRun.writeMockImplFiles (demoEnv false noWriteErr) "out" "mocks"
               [checkerSvc; fetcherSvc] (world0 svcHeap))) = [] ++ ["out"]
  /\ files (snd (RegexRun.writeMockImplFiles (demoEnv false noWriteErr) "out" "mocks"
                   [checkerSvc; fetcherSvc] (world0 svcHeap))) = ∅.
Proof.
  pose proof (C10_output_directory_made_in_both_modes (demoEnv false noWriteErr)
                "example.org/svc" "out" "mocks" [checkerSvc; fetcherSvc] (world0 svcHeap)
                eq_refl) as (Hd & _ & Hf).
  split; [exact Hd|]. exact (proj1 (Hf eq_refl)).
Defined.

(** C9 as stated fails: in a preview run standard output receives the
    rendered file alone; the line naming the path is on standard error. *)
Lemma C9_preview_stdout_has_no_path_line :
  stdout (snd (RegexRun.writeMockImplFiles (demoEnv false noWriteErr) "out" "mocks"
                 [checker] (world0 checkerHeap)))
  = "package mocks" +:+ nl
    +:+ "type MockChecker struct { Check_ func(v0 bool) error }" +:+ nl +:+ nl
    +:+ "func (s *MockChecker) Check(v0 bool) error { return s.Check_(v0) }" +:+ nl
  /\ String.prefix "# "
       (stdout (snd (RegexRun.writeMockImplFiles (demoEnv false noWriteErr) "out" "mocks"
                       [checker] (world0 checkerHeap)))) = false
  /\ stderr (snd (RegexRun.writeMockImplFiles (demoEnv false noWriteErr) "out" "mocks"
                    [checker] (world0 checkerHeap)))
     = "# out/check_mock.go" +:+ nl
  /\ stdout (snd (SuffixRun.writeMockImplFiles (demoEnv false noWriteErr) "example.org/svc"
                    "out" "svc" [fetcher] (world0 fetcherHeap)))
     = "package svc" +:+ nl
       +:+ "import example.org/svc" +:+ nl
       +:+ "type MockFetcher struct { Get_ func(id string) (string, error) }" +:+ nl +:+ nl
       +:+ "func (s *MockFetcher) Get(id string) (string, error) { return s.Get_(id) }" +:+ nl
  /\ stderr (snd (SuffixRun.writeMockImplFiles (demoEnv false noWriteErr) "example.org/svc"
                    "out" "svc" [fetcher] (world0 fetcherHeap)))
     = "# out/fetch_mock.go" +:+ nl.
Proof. repeat split; vm_compute; reflexivity. Qed.

(** C9, amended: without [-w], emitting a file whose rendering succeeds
    appends the line [# <path>] to the log on standard error and the
    rendered content, alone, to standard output, and leaves the files on
    disk as they were. *)
Theorem C9_preview_logs_path_and_prints_content
    (env : Env) (outDir : string) (iface : TypeSpec) (file : File) (w : World)
    (buf src : string) :
  writeFiles env = false ->
  Fprint env (heap w) file = Ok buf ->
  Process env (outputPath env outDir iface) (blankLinesBetweenFuncs buf) = Ok src ->
  Write_err env ToStdout = None ->
  emit env outDir iface file w
  = (Ok tt,
     mkWorld (heap w) (dirs w) (files w) (stdout w +:+ src)
             (stderr w +:+ pathLine env outDir iface)).
Proof.
  intros Hw Hp Hi He. unfold emit, pathLine. rewrite Hw.
  unfold bind, logLine, readHeap, liftResult, Write, ret. simpl.
  by rewrite Hp, Hi, He.
Qed.

Lemma C9_witness :
  emit (demoEnv false noWriteErr) "out" fetcher
    (mkFile "mocks" [TypeDecl "MockFetcher" (StructType [mkField ["Get_"] (FuncTypeAt 0)])])
    (world0 fetcherHeap)
  = (Ok tt,
     mkWorld fetcherHeap [] ∅
       (EmptyString
        +:+ ("package mocks" +:+ nl
             +:+ "type MockFetcher struct { Get_ func(id string) (string, error) }" +:+ nl))
       (EmptyString +:+ pathLine (demoEnv false noWriteErr) "out" fetcher)).
Proof.
  apply (C9_preview_logs_path_and_prints_content (demoEnv false noWriteErr) "out" fetcher
           (mkFile "mocks" [TypeDecl "MockFetcher" (StructType [mkField ["Get_"] (FuncTypeAt 0)])])
           (world0 fetcherHeap)
           ("package mocks" +:+ nl
            +:+ "type MockFetcher struct { Get_ func(id string) (string, error) }" +:+ nl)).
  - reflexivity.
  - vm_compute. reflexivity.
  - vm_compute. reflexivity.
  - reflexivity.
Defined.

(** C7, at a run with [-w] whose first write fails: the first file is left
    empty, no error is returned or logged, and the pass goes on to write the
    second file; the process exits with status 0. *)
Theorem C7_failed_write_is_dropped :
  (let r := RegexRun.writeMockImplFiles (demoEnv true diskFull) "out" "mocks"
              [checkerSvc; fetcherSvc] (world0 svcHeap) in
   Write_err (demoEnv true diskFull) (ToFile "out/check_mock.go")
   = Some "no space left on device"
   /\ fst r = Ok tt
   /\ files (snd r) !! "out/check_mock.go" = Some EmptyString
   /\ files (snd r) !! "out/fetch_mock.go"
      = Some ("package mocks" +:+ nl
              +:+ "type MockFetcherService struct { Get_ func(id string) (string, error) }"
              +:+ nl +:+ nl
              +:+ "func (s *MockFetcherService) Get(id string) (string, error) { return s.Get_(id) }"
              +:+ nl)
   /\ stderr (snd r) = "# out/check_mock.go" +:+ nl +:+ "# out/fetch_mock.go" +:+ nl)
  /\ fst (RegexMain.mainLoop (demoEnv true diskFull) ".+Service" "out" dotPlusService
            [pkgSvc] (world0 svcHeap)) = Exit0
  /\ (let r := SuffixRun.writeMockImplFiles (demoEnv true diskFull) "example.org/svc" "out"
                 "svc" [checkerSvc; fetcherSvc] (world0 svcHeap) in
      fst r = Ok tt
      /\ files (snd r) !! "out/check_mock.go" = Some EmptyString
      /\ is_Some (files (snd r) !! "out/fetch_mock.go")).
Proof. repeat split; vm_compute; try reflexivity. by eexists. Qed.

(** ** The main loop *)

(** ** The interface selector *)

Lemma Node_ind_Forall (P : Node -> Prop) :
  (forall k ch, Forall P ch -> P (mkNode k ch)) -> forall n, P n.
Proof.
  intros H. fix IH 1. intros [k ch]. apply H.
  induction ch as [|c ch IHch]; constructor; [apply IH|exact IHch].
Qed.

Lemma appendMatching_filter (sel : string -> bool) (specs ifaces : list TypeSpec) :
  appendMatching sel specs ifaces = ifaces ++ List.filter (selects sel) specs.
Proof.
  revert ifaces. induction specs as [|t specs IH]; intros ifaces; simpl.
  - by rewrite app_nil_r.
  - unfold selects at 1.
    destruct (isInterfaceType (ts_Type t)); simpl; [|apply IH].
    destruct (sel (ts_Name t)); [|apply IH].
    rewrite IH. by rewrite <- app_assoc.
Qed.

Lemma Walk_candidates (sel : string -> bool) (n : Node) (ifaces : list TypeSpec) :
  Walk (visitFn sel) n ifaces = ifaces ++ candidates sel n.
Proof.
  revert ifaces. induction n as [k ch IH] using Node_ind_Forall. intros ifaces.
  assert (Hfold : forall acc,
             fold_left (fun acc c => Walk (visitFn sel) c acc) ch acc
             = acc ++ flat_map (candidates sel) ch).
  { induction IH as [|c ch Hc _ IHch]; intros acc; simpl; [by rewrite app_nil_r|].
    by rewrite Hc, IHch, <- app_assoc. }
  destruct k; simpl; try apply Hfold.
  destruct Tok; simpl; rewrite ?app_nil_r; try done.
  apply appendMatching_filter.
Qed.

Lemma candidates_Exposed (sel : string -> bool) (n : Node) (t : TypeSpec) :
  In t (candidates sel n)
  <-> exists specs ch,
        Exposed n (mkNode (KGenDecl TYPE specs) ch) /\ In t specs /\ selects sel t = true.
Proof.
  split.
  - revert t. induction n as [k ch IH] using Node_ind_Forall. intros t Hin.
    assert (Hbelow : isGenDecl (mkNode k ch) = false ->
                     In t (flat_map (candidates sel) ch) ->
                     exists specs ch',
                       Exposed (mkNode k ch) (mkNode (KGenDecl TYPE specs) ch')
                       /\ In t specs /\ selects sel t = true).
    { intros Hk (c & Hc & Htc)%in_flat_map.
      rewrite Forall_forall in IH.
      destruct (IH c (proj2 (list_elem_of_In _ _) Hc) t Htc) as (specs & ch' & He & Hs).
      exists specs, ch'. split; [|exact Hs]. by eapply exposed_below. }
    destruct k; simpl in Hin; try (by apply Hbelow).
    destruct Tok; simpl in Hin; try done.
    apply filter_In in Hin as [Hin Hsel].
    exists Specs, ch. split; [constructor|done].
  - intros (specs & ch & He & Hin & Hsel).
    remember (mkNode (KGenDecl TYPE specs) ch) as m eqn:Hm.
    induction He as [n|n c m Hn Hc He IH]; subst.
    + simpl. by apply filter_In.
    + specialize (IH eq_refl). destruct n as [k ch0]. simpl in Hc.
      assert (Hflat : In t (flat_map (candidates sel) ch0)) by (apply in_flat_map; eauto).
      destruct k; simpl; try exact Hflat. discriminate Hn.
Qed.

(** C8 as stated fails: a type declaration inside the body of a function
    declaration is collected by both selectors, although the package has no
    type declaration at top level. *)
Lemma C8_local_type_declaration_is_collected :
  readIfaces pkgLocal dotPlusService = [fooService]
  /\ readServiceInterfaces pkgLocal = [fooService]
  /\ topLevelTypeSpecs pkgLocal = [].
Proof. repeat split; vm_compute; reflexivity. Qed.

(** C8, amended: the selectors collect exactly the matching interface type
    specs of the type declarations that are not inside another general
    declaration, at top level or below (in a function declaration's body,
    say); what lies inside a general declaration is never looked at. *)
Theorem C8_selector_collects_outside_general_declarations
    (pkg : Package) (pat : string -> bool) (t : TypeSpec) :
  (In t (readIfaces pkg pat)
   <-> exists specs ch,
         Exposed (pkgNode pkg) (mkNode (KGenDecl TYPE specs) ch)
         /\ In t specs
         /\ isInterfaceType (ts_Type t) = true
         /\ pat (ts_Name t) = true)
  /\ (In t (readServiceInterfaces pkg)
      <-> exists specs ch,
            Exposed (pkgNode pkg) (mkNode (KGenDecl TYPE specs) ch)
            /\ In t specs
            /\ isInterfaceType (ts_Type t) = true
            /\ HasSuffix (ts_Name t) "Service" = true).
Proof.
  assert (Hsel : forall sel : string -> bool,
             In t (Walk (visitFn sel) (pkgNode pkg) [])
             <-> exists specs ch,
                   Exposed (pkgNode pkg) (mkNode (KGenDecl TYPE specs) ch)
                   /\ In t specs
                   /\ isInterfaceType (ts_Type t) = true
                   /\ sel (ts_Name t) = true).
  { intros sel. rewrite Walk_candidates. rewrite app_nil_l.
    rewrite candidates_Exposed. unfold selects.
    split; intros (specs & ch & He & Hin & Hs); exists specs, ch;
      (split; [exact He|split; [exact Hin|]]).
    - by apply andb_true_iff in Hs.
    - by apply andb_true_iff. }
  split; [apply Hsel|]. apply (Hsel (fun name => HasSuffix name "Service")).
Qed.

Example selector_skips_inside_general_declaration :
  readIfaces pkgInsideVar dotPlusService = []
  /\ readServiceInterfaces pkgInsideVar = []
  /\ readIfaces pkgTopLevel dotPlusService = [fooService].
Proof. repeat split; vm_compute; reflexivity. Qed.

(** ** Further properties: name synthesis *)

Lemma synthesizeFrom_types (fl : list Field) (k : nat) :
  map Type_ (synthesizeFrom k fl) = map Type_ fl.
Proof.
  revert k. induction fl as [|g fl IH]; intros k; simpl; [done|].
  rewrite IH. by destruct (Nat.eqb (length (Names g)) 0).
Qed.

(** X1: synthesizing names twice is the same as synthesizing them once. *)
Theorem X1_synthesis_is_idempotent (fl : list Field) :
  synthesizeFieldNamesIfMissing (synthesizeFieldNamesIfMissing fl)
  = synthesizeFieldNamesIfMissing fl.
Proof. apply synthesizeFrom_id, synthesizeFrom_named. Qed.

(** X2: synthesis keeps the number of parameter groups and every group's
    type, and leaves no group without a name. *)
Theorem X2_synthesis_keeps_groups_and_types (fl : list Field) :
  length (synthesizeFieldNamesIfMissing fl) = length fl
  /\ map Type_ (synthesizeFieldNamesIfMissing fl) = map Type_ fl
  /\ Forall (fun f => Names f <> []) (synthesizeFieldNamesIfMissing fl).
Proof.
  split; [apply synthesizeFrom_length|].
  split; [apply synthesizeFrom_types|apply synthesizeFrom_named].
Qed.

(** X3: a parameter list in which every group is named is left exactly as it
    is. *)
Theorem X3_synthesis_leaves_named_lists_alone (fl : list Field) :
  Forall (fun f => Names f <> []) fl -> synthesizeFieldNamesIfMissing fl = fl.
Proof. apply synthesizeFrom_id. Qed.

Lemma X3_witness :
  synthesizeFieldNamesIfMissing [mkField ["a"; "b"] (Ident "int"); mkField ["c"] (Ident "bool")]
  = [mkField ["a"; "b"] (Ident "int"); mkField ["c"] (Ident "bool")].
Proof.
  apply (X3_synthesis_leaves_named_lists_alone
           [mkField ["a"; "b"] (Ident "int"); mkField ["c"] (Ident "bool")]).
  repeat constructor; discriminate.
Defined.

Lemma synthName_inj (i j : nat) : synthName i = synthName j -> i = j.
Proof. unfold synthName. simpl. intros [= H]. by apply (inj pretty). Qed.

(** X4: two unnamed groups at different positions receive different names. *)
Theorem X4_synthesized_names_are_distinct
    (fl : list Field) (i j : nat) (f g : Field) :
  fl !! i = Some f -> fl !! j = Some g -> Names f = [] -> Names g = [] -> i <> j ->
  exists x y,
    Names <$> (synthesizeFieldNamesIfMissing fl !! i) = Some [x]
    /\ Names <$> (synthesizeFieldNamesIfMissing fl !! j) = Some [y]
    /\ x <> y.
Proof.
  intros Hi Hj Hf Hg Hne. exists (synthName i), (synthName j).
  unfold synthesizeFieldNamesIfMissing.
  rewrite (synthesizeFrom_lookup fl 0 i f Hi), (synthesizeFrom_lookup fl 0 j g Hj).
  rewrite Hf, Hg. simpl. repeat split. intros H. by apply Hne, synthName_inj.
Qed.

Lemma X4_witness :
  exists x y,
    Names <$> (synthesizeFieldNamesIfMissing
                 [mkField [] (Ident "int"); mkField [] (Ident "bool")] !! 0) = Some [x]
    /\ Names <$> (synthesizeFieldNamesIfMissing
                    [mkField [] (Ident "int"); mkField [] (Ident "bool")] !! 1) = Some [y]
    /\ x <> y.
Proof.
  apply (X4_synthesized_names_are_distinct
           [mkField [] (Ident "int"); mkField [] (Ident "bool")] 0 1
           (mkField [] (Ident "int")) (mkField [] (Ident "bool")));
    try reflexivity. lia.
Defined.

Lemma fieldListToIdentList_all_unnamed (fl : list Field) (k : nat) :
  Forall (fun f => Names f = []) fl ->
  fieldListToIdentList (synthesizeFrom k fl)
  = map (fun i => Ident (synthName i)) (seq k (length fl)).
Proof.
  intros H. revert k. induction H as [|g fl Hg _ IH]; intros k; simpl; [done|].
  rewrite Hg. simpl. by rewrite IH.
Qed.

(** X5: for a parameter list of [n] unnamed parameters the delegating call's
    arguments are exactly [v0, ..., v(n-1)], one per parameter, in order. *)
Theorem X5_unnamed_list_is_forwarded_as_v0_to_vn (fl : list Field) :
  Forall (fun f => Names f = []) fl ->
  fieldListToIdentList (synthesizeFieldNamesIfMissing fl)
  = map (fun i => Ident (synthName i)) (seq 0 (length fl)).
Proof. apply fieldListToIdentList_all_unnamed. Qed.

Lemma X5_witness :
  fieldListToIdentList
    (synthesizeFieldNamesIfMissing [mkField [] (Ident "string"); mkField [] (Ident "int")])
  = map (fun i => Ident (synthName i)) (seq 0 2).
Proof.
  apply (X5_unnamed_list_is_forwarded_as_v0_to_vn
           [mkField [] (Ident "string"); mkField [] (Ident "int")]).
  repeat constructor.
Defined.

(** ** Further properties: the mock synthesizer *)

Lemma Regex_mockFile_inv (outPkg : string) (iface : TypeSpec) (h h' : gmap nat FuncType)
    (f : File) :
  Regex.mockFile outPkg iface h = (Ok f, h') ->
  exists ms fields meths,
    ts_Type iface = InterfaceType ms
    /\ mockFields ms = Ok fields
    /\ Regex.mockMethods (mockTypeNameOf iface) ms h = (Ok meths, h')
    /\ f = mkFile outPkg (TypeDecl (mockTypeNameOf iface) (StructType fields) :: meths).
Proof.
  unfold Regex.mockFile.
  destruct (ts_Type iface) as [| | | | | | |ms| |] eqn:Ht; try discriminate.
  destruct (mockFields ms) as [fields| |] eqn:Hf; try discriminate.
  destruct (Regex.mockMethods _ ms h) as [[meths| |] h2] eqn:Hm; try discriminate.
  intros [= <- <-]. by exists ms, fields, meths.
Qed.

Lemma Suffix_mockFile_inv (importPath pkgName : string) (iface : TypeSpec)
    (h : gmap nat FuncType) (f : File) :
  Suffix.mockFile importPath pkgName iface h = Ok f ->
  exists ms fields meths,
    ts_Type iface = InterfaceType ms
    /\ mockFields ms = Ok fields
    /\ Suffix.mockMethods (mockTypeNameOf iface) ms h = Ok meths
    /\ f = mkFile pkgName
             (ImportDecl importPath
              :: TypeDecl (mockTypeNameOf iface) (StructType fields) :: meths).
Proof.
  unfold Suffix.mockFile.
  destruct (ts_Type iface) as [| | | | | | |ms| |] eqn:Ht; try discriminate.
  destruct (mockFields ms) as [fields| |] eqn:Hf; try discriminate.
  destruct (Suffix.mockMethods _ ms h) as [meths| |] eqn:Hm; try discriminate.
  intros [= <-]. by exists ms, fields, meths.
Qed.

(** X6: in the regular-expression variant every method of a mock file that
    was built calls its field with exactly the names its function type
    declares once the file is built, in order, and that function type has
    no unnamed parameter group left. *)
Theorem X6_regex_variant_forwards_every_parameter
    (outPkg : string) (iface : TypeSpec) (h h' : gmap nat FuncType) (f : File) :
  Regex.mockFile outPkg iface h = (Ok f, h') ->
  exists fields meths,
    f_Decls f = TypeDecl (mockTypeNameOf iface) (StructType fields) :: meths
    /\ Forall (fun d => exists name p ft,
                   methodSig d = Some (name, FuncTypeAt p)
                   /\ h' !! p = Some ft
                   /\ callArgs d = Some (map Ident (declaredNames (Params ft)))
                   /\ Forall (fun g => Names g <> []) (Params ft)) meths.
Proof.
  intros (ms & fields & meths & _ & _ & Hm & ->)%Regex_mockFile_inv.
  exists fields, meths. split; [reflexivity|].
  eapply Forall_impl; [exact (Regex_mockMethods_forward _ _ _ _ _ Hm)|].
  intros d (name & p & ft & -> & Hp & Hn). by exists name, p, ft.
Qed.

Lemma X6_witness :
  exists fields meths,
    f_Decls (mkFile "mocks"
               [TypeDecl "MockChecker" (StructType [mkField ["Check_"] (FuncTypeAt 0)]);
                FuncDecl [mkField ["s"] (StarExpr (Ident "MockChecker"))] "Check" 0
                  [ReturnStmt [CallExpr (SelectorExpr (Ident "s") "Check_") [Ident "v0"]]]])
    = TypeDecl (mockTypeNameOf checker) (StructType fields) :: meths
    /\ Forall (fun d => exists name p ft,
                   methodSig d = Some (name, FuncTypeAt p)
                   /\ ({[ 0 := mkFuncType [mkField ["v0"] (Ident "bool")]
                                          [mkField [] (Ident "error")] ]} : gmap nat FuncType)
                      !! p = Some ft
                   /\ callArgs d = Some (map Ident (declaredNames (Params ft)))
                   /\ Forall (fun g => Names g <> []) (Params ft)) meths.
Proof.
  apply (X6_regex_variant_forwards_every_parameter "mocks" checker checkerHeap).
  vm_compute. reflexivity.
Defined.

(** X7: the fixed-suffix variant forwards the names as the interface
    declares them: a method's call has one argument per declared name and
    none for an unnamed parameter. *)
Theorem X7_suffix_variant_forwards_declared_names_only
    (importPath pkgName : string) (iface : TypeSpec) (h : gmap nat FuncType) (f : File) :
  Suffix.mockFile importPath pkgName iface h = Ok f ->
  exists fields meths,
    f_Decls f
    = ImportDecl importPath :: TypeDecl (mockTypeNameOf iface) (StructType fields) :: meths
    /\ Forall (fun d => exists name p ft,
                   methodSig d = Some (name, FuncTypeAt p)
                   /\ h !! p = Some ft
                   /\ callArgs d = Some (map Ident (declaredNames (Params ft)))) meths.
Proof.
  intros (ms & fields & meths & _ & _ & Hm & ->)%Suffix_mockFile_inv.
  exists fields, meths. split; [reflexivity|].
  eapply Forall_impl; [exact (Suffix_mockMethods_forward _ _ _ _ Hm)|].
  intros d (name & p & ft & -> & Hp). by exists name, p, ft.
Qed.

Lemma X7_witness :
  exists fields meths,
    f_Decls (mkFile "svc"
               [ImportDecl "example.org/svc";
                TypeDecl "MockFetcher" (StructType [mkField ["Get_"] (FuncTypeAt 0)]);
                FuncDecl [mkField ["s"] (StarExpr (Ident "MockFetcher"))] "Get" 0
                  [ReturnStmt [CallExpr (SelectorExpr (Ident "s") "Get_") [Ident "id"]]]])
    = ImportDecl "example.org/svc"
      :: TypeDecl (mockTypeNameOf fetcher) (StructType fields) :: meths
    /\ Forall (fun d => exists name p ft,
                   methodSig d = Some (name, FuncTypeAt p)
                   /\ fetcherHeap !! p = Some ft
                   /\ callArgs d = Some (map Ident (declaredNames (Params ft)))) meths.
Proof.
  apply (X7_suffix_variant_forwards_declared_names_only "example.org/svc" "svc" fetcher
           fetcherHeap).
  vm_compute. reflexivity.
Defined.

(** X8: where every function type in the store has only named parameter
    groups, the regular-expression variant builds a file and leaves the
    store unchanged exactly when the fixed-suffix variant builds the same
    file with the import declaration put first. *)
Theorem X8_variants_agree_on_named_parameters
    (importPath pkgName : string) (iface : TypeSpec) (h : gmap nat FuncType) (f : File) :
  (forall p ft, h !! p = Some ft -> Forall (fun g => Names g <> []) (Params ft)) ->
  Regex.mockFile pkgName iface h = (Ok f, h)
  <-> Suffix.mockFile importPath pkgName iface h = Ok (AddImport importPath f).
Proof. apply variants_agree_on_named_parameters. Qed.

Lemma fetcherHeap_named (p : nat) (ft : FuncType) :
  fetcherHeap !! p = Some ft -> Forall (fun g => Names g <> []) (Params ft).
Proof.
  unfold fetcherHeap. intros H. apply lookup_singleton_Some in H as [_ <-].
  repeat constructor; discriminate.
Qed.

Lemma X8_witness :
  Suffix.mockFile "example.org/svc" "svc" fetcher fetcherHeap
  = Ok (AddImport "example.org/svc"
          (mkFile "svc"
             [TypeDecl "MockFetcher" (StructType [mkField ["Get_"] (FuncTypeAt 0)]);
              FuncDecl [mkField ["s"] (StarExpr (Ident "MockFetcher"))] "Get" 0
                [ReturnStmt [CallExpr (SelectorExpr (Ident "s") "Get_") [Ident "id"]]]])).
Proof.
  apply (proj1 (X8_variants_agree_on_named_parameters "example.org/svc" "svc" fetcher
                  fetcherHeap _ fetcherHeap_named)).
  vm_compute. reflexivity.
Defined.

(** ** Further properties: the shared syntax store *)

Lemma Regex_mockMethods_store (mock : string) (ms : list Field) (h h' : gmap nat FuncType)
    (r : Result (list Decl)) (p : nat) :
  Regex.mockMethods mock ms h = (r, h') ->
  (h !! p = None -> h' !! p = None)
  /\ (forall a, h !! p = Some a ->
        exists b, h' !! p = Some b
                  /\ Results b = Results a
                  /\ map Type_ (Params b) = map Type_ (Params a)
                  /\ (b = a \/ Params b = synthesizeFieldNamesIfMissing (Params a))).
Proof.
  revert h h' r. induction ms as [|m ms IH]; intros h h' r Hrun; simpl in Hrun.
  - injection Hrun as _ <-. split; [done|]. intros a Ha. exists a. by repeat split; [..|left].
  - destruct (Type_ m) as [| | | | | |q| | |]; try (by eapply IH).
    destruct (h !! q) as [g|] eqn:Hq.
    2:{ injection Hrun as _ <-. split; [done|]. intros a Ha. exists a.
        by repeat split; [..|left]. }
    set (g' := mkFuncType (synthesizeFieldNamesIfMissing (Params g)) (Results g)) in *.
    assert (Hstep : (h !! p = None -> <[q := g']> h !! p = None)
                    /\ (forall a, h !! p = Some a ->
                          exists b, <[q := g']> h !! p = Some b
                                    /\ Results b = Results a
                                    /\ map Type_ (Params b) = map Type_ (Params a)
                                    /\ (b = a
                                        \/ Params b = synthesizeFieldNamesIfMissing (Params a)))).
    { split.
      - intros Hn. rewrite lookup_insert_ne; [done|]. intros ->. congruence.
      - intros a Ha. destruct (decide (q = p)) as [->|Hne].
        + rewrite lookup_insert_eq. exists g'. rewrite Hq in Ha. injection Ha as <-.
          repeat split; [apply synthesizeFrom_types|by right].
        + rewrite lookup_insert_ne by done. exists a. by repeat split; [..|left]. }
    assert (Hrest : forall r2 h2, Regex.mockMethods mock ms (<[q := g']> h) = (r2, h2) ->
              (h !! p = None -> h2 !! p = None)
              /\ (forall a, h !! p = Some a ->
                    exists b, h2 !! p = Some b
                              /\ Results b = Results a
                              /\ map Type_ (Params b) = map Type_ (Params a)
                              /\ (b = a
                                  \/ Params b = synthesizeFieldNamesIfMissing (Params a)))).
    { intros r2 h2 H2. destruct (IH _ _ _ H2) as [IHn IHs]. destruct Hstep as [Sn Ss]. split.
      - intros Hn. by apply IHn, Sn.
      - intros a Ha. destruct (Ss a Ha) as (b & Hb & Hr & Ht & Hp).
        destruct (IHs b Hb) as (c & Hc & Hr' & Ht' & Hp'). exists c.
        split; [exact Hc|]. split; [congruence|]. split; [congruence|].
        destruct Hp as [->|Hp]; [exact Hp'|]. right.
        destruct Hp' as [->|Hp']; [exact Hp|].
        rewrite Hp', Hp. apply synthesize_idempotent. }
    destruct (firstName m); [|injection Hrun as _ <-; exact Hstep].
    destruct (Regex.mockMethods mock ms _) as [[ds| |] h2] eqn:Hm;
      injection Hrun as _ <-; by eapply Hrest.
Qed.

(** X9: building a mock file in the regular-expression variant changes
    nothing in the store but parameter names: no function type appears or
    disappears, and each keeps its results and its parameter types, its
    parameter list being either as before or the synthesis of what it was. *)
Theorem X9_regex_variant_rewrites_names_only
    (outPkg : string) (iface : TypeSpec) (h : gmap nat FuncType) (p : nat) :
  (h !! p = None -> snd (Regex.mockFile outPkg iface h) !! p = None)
  /\ (forall a, h !! p = Some a ->
        exists b, snd (Regex.mockFile outPkg iface h) !! p = Some b
                  /\ Results b = Results a
                  /\ map Type_ (Params b) = map Type_ (Params a)
                  /\ (b = a \/ Params b = synthesizeFieldNamesIfMissing (Params a))).
Proof.
  assert (Hid : (h !! p = None -> h !! p = None)
                /\ (forall a, h !! p = Some a ->
                      exists b, h !! p = Some b /\ Results b = Results a
                                /\ map Type_ (Params b) = map Type_ (Params a)
                                /\ (b = a
                                    \/ Params b = synthesizeFieldNamesIfMissing (Params a)))).
  { split; [done|]. intros a Ha. exists a. by repeat split; [..|left]. }
  unfold Regex.mockFile. destruct (ts_Type iface); try exact Hid.
  destruct (mockFields Methods); try exact Hid.
  destruct (Regex.mockMethods _ Methods h) as [r h'] eqn:Hm.
  pose proof (Regex_mockMethods_store _ _ _ _ _ p Hm) as Hs.
  by destruct r.
Qed.

Lemma X9_witness :
  exists b, snd (Regex.mockFile "mocks" checker checkerHeap) !! 0 = Some b
            /\ Results b = [mkField [] (Ident "error")]
            /\ map Type_ (Params b) = [Ident "bool"]
            /\ (b = mkFuncType [mkField [] (Ident "bool")] [mkField [] (Ident "error")]
                \/ Params b = synthesizeFieldNamesIfMissing [mkField [] (Ident "bool")]).
Proof.
  apply (proj2 (X9_regex_variant_rewrites_names_only "mocks" checker checkerHeap 0)
           (mkFuncType [mkField [] (Ident "bool")] [mkField [] (Ident "error")])).
  vm_compute. reflexivity.
Defined.

Lemma Regex_mockMethods_frame (mock : string) (ms : list Field) (h h' : gmap nat FuncType)
    (r : Result (list Decl)) (p : nat) :
  Regex.mockMethods mock ms h = (r, h') ->
  ~ In (FuncTypeAt p) (map Type_ ms) ->
  h' !! p = h !! p.
Proof.
  revert h r. induction ms as [|m ms IH]; intros h r Hrun Hp; simpl in Hrun.
  - by injection Hrun as _ <-.
  - simpl in Hp. apply Decidable.not_or in Hp as [Hm Hp].
    destruct (Type_ m) as [| | | | | |q| | |]; try (by eapply IH).
    destruct (h !! q) as [g|] eqn:Hq; [|by injection Hrun as _ <-].
    assert (Hne : q <> p) by congruence.
    destruct (firstName m).
    + destruct (Regex.mockMethods mock ms _) as [[ds| |] h2] eqn:Hrest;
        injection Hrun as _ <-; rewrite (IH _ _ Hrest Hp); by rewrite lookup_insert_ne.
    + injection Hrun as _ <-. by rewrite lookup_insert_ne.
Qed.

(** X10: a function type that is not the type of one of the interface's
    own method-list entries is left as it is. *)
Theorem X10_regex_variant_touches_only_the_interface
    (outPkg : string) (iface : TypeSpec) (ms : list Field) (h : gmap nat FuncType) (p : nat) :
  ts_Type iface = InterfaceType ms ->
  ~ In (FuncTypeAt p) (map Type_ ms) ->
  snd (Regex.mockFile outPkg iface h) !! p = h !! p.
Proof.
  intros Ht Hp. unfold Regex.mockFile. rewrite Ht.
  destruct (mockFields ms); try done.
  destruct (Regex.mockMethods _ ms h) as [r h'] eqn:Hm.
  pose proof (Regex_mockMethods_frame _ _ _ _ _ p Hm Hp) as Hf.
  by destruct r.
Qed.

Lemma X10_witness :
  snd (Regex.mockFile "mocks" checkerSvc svcHeap) !! 1 = svcHeap !! 1.
Proof.
  apply (X10_regex_variant_touches_only_the_interface "mocks" checkerSvc
           [mkField ["Check"] (FuncTypeAt 0)] svcHeap 1).
  - reflexivity.
  - simpl. intros [H|[]]. discriminate H.
Defined.

(** ** Further properties: shape and failures of a mock file *)

Lemma mockFields_unnamed_panics (ms : list Field) :
  Exists (fun m => isFuncEntry m = true /\ Names m = []) ms ->
  mockFields ms = Panic "index out of range".
Proof.
  induction ms as [|m ms IH]; intros Hex; [by apply Exists_nil in Hex|].
  apply Exists_cons in Hex. simpl. unfold isFuncEntry, firstName in *.
  destruct (Type_ m) eqn:Ht;
    try (destruct Hex as [[Hf _]|Hex]; [discriminate Hf|by apply IH]).
  destruct (Names m) eqn:Hn; simpl; [done|].
  destruct Hex as [[_ Hf]|Hex]; [discriminate Hf|]. by rewrite IH.
Qed.

(** X11: a method-list entry that has a function type but no name makes
    both variants panic with an index out of range, before the store is
    touched and before anything is built. *)
Theorem X11_function_entry_without_name_panics
    (importPath outPkg : string) (iface : TypeSpec) (ms : list Field) (h : gmap nat FuncType) :
  ts_Type iface = InterfaceType ms ->
  Exists (fun m => isFuncEntry m = true /\ Names m = []) ms ->
  Regex.mockFile outPkg iface h = (Panic "index out of range", h)
  /\ Suffix.mockFile importPath outPkg iface h = Panic "index out of range".
Proof.
  intros Ht Hex. unfold Regex.mockFile, Suffix.mockFile.
  by rewrite Ht, (mockFields_unnamed_panics ms Hex).
Qed.

Lemma X11_witness :
  Regex.mockFile "mocks"
    (mkTypeSpec "Odd" (InterfaceType [mkField ["A"] (FuncTypeAt 0); mkField [] (FuncTypeAt 0)])
       "odd.go") checkerHeap
  = (Panic "index out of range", checkerHeap)
  /\ Suffix.mockFile "example.org/svc" "mocks"
       (mkTypeSpec "Odd" (InterfaceType [mkField ["A"] (FuncTypeAt 0); mkField [] (FuncTypeAt 0)])
          "odd.go") checkerHeap
     = Panic "index out of range".
Proof.
  apply (X11_function_entry_without_name_panics "example.org/svc" "mocks"
           (mkTypeSpec "Odd"
              (InterfaceType [mkField ["A"] (FuncTypeAt 0); mkField [] (FuncTypeAt 0)]) "odd.go")
           [mkField ["A"] (FuncTypeAt 0); mkField [] (FuncTypeAt 0)] checkerHeap).
  - reflexivity.
  - apply Exists_cons_tl, Exists_cons_hd. by split.
Defined.

(** X12: a mock file that was built carries the package name it was given;
    its struct is named [Mock] followed by the interface's name, and every
    method has the receiver [s] of type pointer to that struct and returns
    the call of the field named as the method with [_] appended, on [s]. *)
Theorem X12_mock_is_named_after_the_interface
    (importPath outPkg : string) (iface : TypeSpec) (h h' : gmap nat FuncType) (f g : File) :
  Regex.mockFile outPkg iface h = (Ok f, h') ->
  Suffix.mockFile importPath outPkg iface h = Ok g ->
  let shaped (d : Decl) :=
    exists name p args,
      d = FuncDecl [mkField ["s"] (StarExpr (Ident ("Mock" +:+ ts_Name iface)))] name p
            [ReturnStmt [CallExpr (SelectorExpr (Ident "s") (name +:+ "_")) args]] in
  f_Name f = outPkg /\ f_Name g = outPkg
  /\ (exists fields meths,
        f_Decls f = TypeDecl ("Mock" +:+ ts_Name iface) (StructType fields) :: meths
        /\ Forall shaped meths)
  /\ (exists fields meths,
        f_Decls g = ImportDecl importPath
                    :: TypeDecl ("Mock" +:+ ts_Name iface) (StructType fields) :: meths
        /\ Forall shaped meths).
Proof.
  intros (ms & fields & meths & _ & _ & Hm & ->)%Regex_mockFile_inv
         (ms' & fields' & meths' & _ & _ & Hm' & ->)%Suffix_mockFile_inv.
  simpl. repeat split.
  - exists fields, meths. split; [reflexivity|].
    eapply Forall_impl; [exact (Regex_mockMethods_forward _ _ _ _ _ Hm)|].
    intros d (name & p & ft & -> & _). by eexists name, p, _.
  - exists fields', meths'. split; [reflexivity|].
    eapply Forall_impl; [exact (Suffix_mockMethods_forward _ _ _ _ Hm')|].
    intros d (name & p & ft & -> & _). by eexists name, p, _.
Qed.

Lemma X12_witness :
  let shaped (d : Decl) :=
    exists name p args,
      d = FuncDecl [mkField ["s"] (StarExpr (Ident ("Mock" +:+ ts_Name fetcher)))] name p
            [ReturnStmt [CallExpr (SelectorExpr (Ident "s") (name +:+ "_")) args]] in
  f_Name (mkFile "svc"
            [TypeDecl "MockFetcher" (StructType [mkField ["Get_"] (FuncTypeAt 0)]);
             delegate "MockFetcher" "Get" 0 [Ident "id"]]) = "svc"
  /\ f_Name (mkFile "svc"
               [ImportDecl "example.org/svc";
                TypeDecl "MockFetcher" (StructType [mkField ["Get_"] (FuncTypeAt 0)]);
                delegate "MockFetcher" "Get" 0 [Ident "id"]]) = "svc"
  /\ (exists fields meths,
        f_Decls (mkFile "svc"
                   [TypeDecl "MockFetcher" (StructType [mkField ["Get_"] (FuncTypeAt 0)]);
                    delegate "MockFetcher" "Get" 0 [Ident "id"]])
        = TypeDecl ("Mock" +:+ ts_Name fetcher) (StructType fields) :: meths
        /\ Forall shaped meths)
  /\ (exists fields meths,
        f_Decls (mkFile "svc"
                   [ImportDecl "example.org/svc";
                    TypeDecl "MockFetcher" (StructType [mkField ["Get_"] (FuncTypeAt 0)]);
                    delegate "MockFetcher" "Get" 0 [Ident "id"]])
        = ImportDecl "example.org/svc"
          :: TypeDecl ("Mock" +:+ ts_Name fetcher) (StructType fields) :: meths
        /\ Forall shaped meths).
Proof.
  apply (X12_mock_is_named_after_the_interface "example.org/svc" "svc" fetcher
           fetcherHeap fetcherHeap).
  - vm_compute. reflexivity.
  - vm_compute. reflexivity.
Defined.

(** ** Further properties: the output sink *)

Lemma emit_write_success (env : Env) (outDir : string) (iface : TypeSpec) (file : File)
    (w : World) (src : string) :
  writeFiles env = true ->
  Create_err env (outputPath env outDir iface) = None ->
  rendered env outDir iface (heap w) file = Ok src ->
  Write_err env (ToFile (outputPath env outDir iface)) = None ->
  emit env outDir iface file w
  = (Ok tt,
     mkWorld (heap w) (dirs w) (<[outputPath env outDir iface := src]> (files w)) (stdout w)
             (stderr w +:+ pathLine env outDir iface)).
Proof.
  intros Hw Hc Hr He. unfold rendered in Hr. unfold emit, pathLine. rewrite Hw.
  unfold bind, logLine, readHeap, liftResult, Create, Write, ret. simpl. rewrite Hc. simpl.
  destruct (Fprint env (heap w) file) as [buf| |]; try discriminate. rewrite Hr, He.
  rewrite lookup_insert_eq. simpl. by rewrite insert_insert_eq.
Qed.

(** X13: with [-w], when creating, rendering and writing succeed, the file
    at the output path holds exactly the rendered text afterwards, whatever
    it held before; no other file and neither output stream's content
    changes, apart from the path line in the log. *)
Theorem X13_write_mode_replaces_the_file
    (env : Env) (outDir : string) (iface : TypeSpec) (file : File) (w : World) (src : string) :
  writeFiles env = true ->
  Create_err env (outputPath env outDir iface) = None ->
  rendered env outDir iface (heap w) file = Ok src ->
  Write_err env (ToFile (outputPath env outDir iface)) = None ->
  emit env outDir iface file w
  = (Ok tt,
     mkWorld (heap w) (dirs w) (<[outputPath env outDir iface := src]> (files w)) (stdout w)
             (stderr w +:+ pathLine env outDir iface)).
Proof. apply emit_write_success. Qed.

Lemma X13_witness :
  emit (demoEnv true noWriteErr) "out" fetcher fetcherStruct staleWorld
  = (Ok tt,
     mkWorld fetcherHeap []
       (<[ outputPath (demoEnv true noWriteErr) "out" fetcher :=
             "package mocks" +:+ nl
             +:+ "type MockFetcher struct { Get_ func(id string) (string, error) }" +:+ nl ]>
          {[ "out/fetch_mock.go" := "stale" ]})
       EmptyString
       (EmptyString +:+ pathLine (demoEnv true noWriteErr) "out" fetcher)).
Proof.
  apply (X13_write_mode_replaces_the_file (demoEnv true noWriteErr) "out" fetcher
           fetcherStruct staleWorld).
  - reflexivity.
  - reflexivity.
  - vm_compute. reflexivity.
  - reflexivity.
Defined.

(** X14: two interfaces whose source files have the same base name (two
    interfaces of one file) are written to the same path, and after both
    are emitted the file holds the second one's text alone. *)
Theorem X14_interfaces_of_one_file_overwrite_each_other
    (env : Env) (outDir : string) (iface1 iface2 : TypeSpec) (file1 file2 : File) (w : World)
    (src1 src2 : string) :
  writeFiles env = true ->
  Base env (ts_Filename iface1) = Base env (ts_Filename iface2) ->
  Create_err env (outputPath env outDir iface1) = None ->
  Write_err env (ToFile (outputPath env outDir iface1)) = None ->
  rendered env outDir iface1 (heap w) file1 = Ok src1 ->
  rendered env outDir iface2 (heap w) file2 = Ok src2 ->
  outputPath env outDir iface2 = outputPath env outDir iface1
  /\ fst (emit env outDir iface1 file1 w) = Ok tt
  /\ emit env outDir iface2 file2 (snd (emit env outDir iface1 file1 w))
     = (Ok tt,
        mkWorld (heap w) (dirs w) (<[outputPath env outDir iface1 := src2]> (files w))
                (stdout w)
                ((stderr w +:+ pathLine env outDir iface1) +:+ pathLine env outDir iface1)).
Proof.
  intros Hw Hb Hc Hwr H1 H2.
  assert (Hp : outputPath env outDir iface2 = outputPath env outDir iface1).
  { unfold outputPath. by rewrite Hb. }
  split; [exact Hp|].
  rewrite (emit_write_success env outDir iface1 file1 w src1 Hw Hc H1 Hwr). simpl.
  split; [reflexivity|].
  rewrite (emit_write_success env outDir iface2 file2 _ src2 Hw); simpl;
    rewrite ?Hp; try done.
  all: try (unfold pathLine; rewrite Hp; by rewrite insert_insert_eq).
  all: try (unfold rendered in *; by rewrite Hp in H2).
Qed.

Lemma X14_witness :
  outputPath (demoEnv true noWriteErr) "out" ifaceB
  = outputPath (demoEnv true noWriteErr) "out" ifaceA
  /\ fst (emit (demoEnv true noWriteErr) "out" ifaceA fileA (world0 ∅)) = Ok tt
  /\ emit (demoEnv true noWriteErr) "out" ifaceB fileB
       (snd (emit (demoEnv true noWriteErr) "out" ifaceA fileA (world0 ∅)))
     = (Ok tt,
        mkWorld ∅ []
          (<[outputPath (demoEnv true noWriteErr) "out" ifaceA
             := "package mocks" +:+ nl +:+ "type MockB struct {  }" +:+ nl]> ∅)
          EmptyString
          ((EmptyString +:+ pathLine (demoEnv true noWriteErr) "out" ifaceA)
           +:+ pathLine (demoEnv true noWriteErr) "out" ifaceA)).
Proof.
  apply (X14_interfaces_of_one_file_overwrite_each_other (demoEnv true noWriteErr) "out"
           ifaceA ifaceB fileA fileB (world0 ∅)
           ("package mocks" +:+ nl +:+ "type MockA struct {  }" +:+ nl)
           ("package mocks" +:+ nl +:+ "type MockB struct {  }" +:+ nl)).
  - reflexivity.
  - reflexivity.
  - reflexivity.
  - reflexivity.
  - vm_compute. reflexivity.
  - vm_compute. reflexivity.
Defined.

(** X15: with [-w] the output file is created before anything is rendered:
    when rendering or import resolution then fails, the error is returned
    and the file is left on disk, empty, its former content gone.  Without
    [-w] the same failure leaves only the path line in the log. *)
Theorem X15_failed_rendering_leaves_an_empty_file
    (env : Env) (outDir : string) (iface : TypeSpec) (file : File) (w : World) (e : string) :
  rendered env outDir iface (heap w) file = Error e ->
  (writeFiles env = true ->
   Create_err env (outputPath env outDir iface) = None ->
   emit env outDir iface file w
   = (Error e,
      mkWorld (heap w) (dirs w) (<[outputPath env outDir iface := EmptyString]> (files w))
              (stdout w) (stderr w +:+ pathLine env outDir iface)))
  /\ (writeFiles env = false ->
      emit env outDir iface file w
      = (Error e,
         mkWorld (heap w) (dirs w) (files w) (stdout w)
                 (stderr w +:+ pathLine env outDir iface))).
Proof.
  intros Hr. unfold rendered in Hr. unfold emit, pathLine. split.
  - intros Hw Hc. rewrite Hw.
    unfold bind, logLine, readHeap, liftResult, Create, Write, ret. simpl. rewrite Hc. simpl.
    destruct (Fprint env (heap w) file) as [buf| |]; try discriminate.
    + by rewrite Hr.
    + by injection Hr as ->.
  - intros Hw. rewrite Hw.
    unfold bind, logLine, readHeap, liftResult, Create, Write, ret. simpl.
    destruct (Fprint env (heap w) file) as [buf| |]; try discriminate.
    + by rewrite Hr.
    + by injection Hr as ->.
Qed.

Lemma X15_witness :
  emit noImportsEnv "out" fetcher fetcherStruct staleWorld
  = (Error "cannot find package",
     mkWorld fetcherHeap []
       (<[outputPath noImportsEnv "out" fetcher := EmptyString]>
          {[ "out/fetch_mock.go" := "stale" ]})
       EmptyString (EmptyString +:+ pathLine noImportsEnv "out" fetcher)).
Proof.
  apply (proj1 (X15_failed_rendering_leaves_an_empty_file noImportsEnv "out" fetcher
                  fetcherStruct staleWorld "cannot find package" eq_refl));
    reflexivity.
Defined.

(** X16: when [os.Create] fails for an interface, the pass stops there with
    that error: nothing is rendered or written for it, and the interfaces
    after it are not looked at. *)
Theorem X16_failed_create_stops_the_pass
    (env : Env) (outDir outPkg : string) (iface : TypeSpec) (rest : list TypeSpec)
    (file : File) (h' : gmap nat FuncType) (w : World) (e : string) :
  writeFiles env = true ->
  Regex.mockFile outPkg iface (heap w) = (Ok file, h') ->
  Create_err env (outputPath env outDir iface) = Some e ->
  RegexRun.writeLoop env outDir outPkg (iface :: rest) w
  = (Error e,
     mkWorld h' (dirs w) (files w) (stdout w) (stderr w +:+ pathLine env outDir iface)).
Proof.
  intros Hw Hf Hc. simpl. unfold bind at 1. unfold onHeap. rewrite Hf.
  unfold bind at 1. unfold emit, pathLine. rewrite Hw.
  unfold bind, logLine, Create. simpl. by rewrite Hc.
Qed.

Lemma X16_witness :
  RegexRun.writeLoop noCreateEnv "out" "mocks" [checkerSvc; fetcherSvc] (world0 svcHeap)
  = (Error "permission denied",
     mkWorld (snd (Regex.mockFile "mocks" checkerSvc svcHeap)) [] ∅ EmptyString
             (EmptyString +:+ pathLine noCreateEnv "out" checkerSvc)).
Proof.
  apply (X16_failed_create_stops_the_pass noCreateEnv "out" "mocks" checkerSvc [fetcherSvc]
           (mkFile "mocks"
              [TypeDecl "MockCheckerService" (StructType [mkField ["Check_"] (FuncTypeAt 0)]);
               delegate "MockCheckerService" "Check" 0 [Ident "v0"]])
           (snd (Regex.mockFile "mocks" checkerSvc svcHeap)) (world0 svcHeap)
           "permission denied").
  - reflexivity.
  - vm_compute. reflexivity.
  - reflexivity.
Defined.

(** ** Further properties: names and paths *)

Lemma length_append (a b : string) :
  String.length (a +:+ b) = String.length a + String.length b.
Proof. induction a as [|c a IH]; simpl; [done|]. by rewrite IH. Qed.

Lemma substring_all (s : string) : substring 0 (String.length s) s = s.
Proof. induction s as [|c s IH]; simpl; [done|]. by rewrite IH. Qed.

Lemma substring_append_left (a b : string) : substring 0 (String.length a) (a +:+ b) = a.
Proof. induction a as [|c a IH]; simpl; [by destruct b|]. by rewrite IH. Qed.

Lemma substring_append_right (a b : string) :
  substring (String.length a) (String.length b) (a +:+ b) = b.
Proof. induction a as [|c a IH]; simpl; [apply substring_all|exact IH]. Qed.

Lemma substring_split (s : string) (n : nat) :
  n <= String.length s ->
  s = substring 0 n s +:+ substring n (String.length s - n) s.
Proof.
  revert n. induction s as [|c s IH]; intros n Hn; simpl in *.
  - by replace n with 0 by lia.
  - destruct n as [|n].
    + simpl. by rewrite substring_all.
    + change (String c s
              = String c (substring 0 n s +:+ substring n (String.length s - n) s)).
      f_equal. apply IH. lia.
Qed.

Lemma HasSuffix_iff (s suffix : string) :
  HasSuffix s suffix = true <-> exists pre, s = pre +:+ suffix.
Proof.
  unfold HasSuffix. rewrite andb_true_iff, Nat.leb_le, String.eqb_eq. split.
  - intros [Hlen Hsub].
    exists (substring 0 (String.length s - String.length suffix) s).
    pose proof (substring_split s (String.length s - String.length suffix)) as H.
    replace (String.length s - (String.length s - String.length suffix))
      with (String.length suffix) in H by lia.
    rewrite Hsub in H. apply H. lia.
  - intros [pre ->]. rewrite length_append. split; [lia|].
    replace (String.length pre + String.length suffix - String.length suffix)
      with (String.length pre) by lia.
    apply substring_append_right.
Qed.

(** X17: the suffix test holds exactly for the strings that end in the
    suffix, so every interface the fixed-suffix selector returns has a name
    that ends in [Service] (the bare name [Service] included). *)
Theorem X17_suffix_selector_returns_names_ending_in_Service :
  (forall s suffix, HasSuffix s suffix = true <-> exists pre, s = pre +:+ suffix)
  /\ (forall pkg t, In t (readServiceInterfaces pkg) ->
                    exists pre, ts_Name t = pre +:+ "Service")
  /\ HasSuffix "Service" "Service" = true.
Proof.
  split; [apply HasSuffix_iff|]. split; [|reflexivity].
  intros pkg t. unfold readServiceInterfaces. rewrite Walk_candidates, app_nil_l.
  intros (specs & ch & _ & _ & Hsel)%candidates_Exposed.
  unfold selects in Hsel. apply andb_true_iff in Hsel as [_ Hsel].
  by apply HasSuffix_iff.
Qed.

Lemma X17_witness : exists pre, ts_Name fooService = pre +:+ "Service".
Proof.
  apply (proj1 (proj2 X17_suffix_selector_returns_names_ending_in_Service) pkgTopLevel
           fooService).
  vm_compute. by left.
Defined.

Lemma TrimSuffix_append (pre suffix : string) : TrimSuffix (pre +:+ suffix) suffix = pre.
Proof.
  unfold TrimSuffix.
  assert (H : HasSuffix (pre +:+ suffix) suffix = true).
  { unfold HasSuffix. rewrite andb_true_iff, Nat.leb_le, String.eqb_eq, length_append.
    split; [lia|].
    replace (String.length pre + String.length suffix - String.length suffix)
      with (String.length pre) by lia.
    apply substring_append_right. }
  rewrite H, length_append.
  replace (String.length pre + String.length suffix - String.length suffix)
    with (String.length pre) by lia.
  apply substring_append_left.
Qed.

(** X18: the output file of an interface declared in [<stem>.go] is
    [<stem>_mock.go] in the output directory, whatever directory the source
    file is in; a source file whose name does not end in [.go] keeps its
    whole name before [_mock.go]. *)
Theorem X18_output_path_is_derived_from_the_source_file
    (env : Env) (outDir : string) (iface : TypeSpec) :
  (forall stem, Base env (ts_Filename iface) = stem +:+ ".go" ->
                outputPath env outDir iface = Join env outDir (stem +:+ "_mock.go"))
  /\ (HasSuffix (Base env (ts_Filename iface)) ".go" = false ->
      outputPath env outDir iface
      = Join env outDir (Base env (ts_Filename iface) +:+ "_mock.go")).
Proof.
  unfold outputPath. split.
  - intros stem ->. by rewrite TrimSuffix_append.
  - intros H. unfold TrimSuffix. by rewrite H.
Qed.

Lemma X18_witness :
  outputPath (demoEnv false noWriteErr) "out" checkerSvc
  = Join (demoEnv false noWriteErr) "out" ("check" +:+ "_mock.go")
  /\ outputPath (demoEnv false noWriteErr) "out" (mkTypeSpec "A" (InterfaceType []) "dir/a.txt")
     = Join (demoEnv false noWriteErr) "out" ("a.txt" +:+ "_mock.go").
Proof.
  split.
  - apply (proj1 (X18_output_path_is_derived_from_the_source_file
                    (demoEnv false noWriteErr) "out" checkerSvc) "check").
    vm_compute. reflexivity.
  - apply (proj2 (X18_output_path_is_derived_from_the_source_file
                    (demoEnv false noWriteErr) "out"
                    (mkTypeSpec "A" (InterfaceType []) "dir/a.txt"))).
    vm_compute. reflexivity.
Defined.

Lemma replaceFrom_absent (old new s : string) :
  contains old s = false -> replaceFrom old new 0 s = s.
Proof.
  induction s as [|c s IH]; intros H; [reflexivity|].
  change (contains old (String c s))
    with (String.prefix old (String c s) || contains old s) in H.
  apply orb_false_iff in H as [Hp Hc].
  change (replaceFrom old new 0 (String c s))
    with (if String.prefix old (String c s)
          then new +:+ replaceFrom old new (String.length old - 1) s
          else String c (replaceFrom old new 0 s)).
  rewrite Hp. by rewrite IH.
Qed.

(** X19: rendered text in which no closing brace is followed directly by a
    line starting with [func] passes through the blank-line pass
    unchanged. *)
Theorem X19_blank_line_pass_is_identity_without_adjacent_funcs (src : string) :
  contains ("}" +:+ nl +:+ "func") src = false -> blankLinesBetweenFuncs src = src.
Proof. intros H. unfold blankLinesBetweenFuncs, Replace. by apply replaceFrom_absent. Qed.

Lemma X19_witness :
  blankLinesBetweenFuncs ("package p" +:+ nl +:+ "type T struct {}" +:+ nl)
  = "package p" +:+ nl +:+ "type T struct {}" +:+ nl.
Proof.
  apply (X19_blank_line_pass_is_identity_without_adjacent_funcs
           ("package p" +:+ nl +:+ "type T struct {}" +:+ nl)).
  vm_compute. reflexivity.
Defined.

(** ** Further properties: the selector and the main loops *)

(** X20: the interfaces selected from a package are those selected from its
    files, file after file, and within a type declaration the matching
    interface type specs in the order they are declared. *)
Theorem X20_selection_follows_file_and_declaration_order
    (name : string) (fs1 fs2 : list Node) (pat : string -> bool) :
  readIfaces (mkPackage name (fs1 ++ fs2)) pat
  = readIfaces (mkPackage name fs1) pat ++ readIfaces (mkPackage name fs2) pat
  /\ readServiceInterfaces (mkPackage name (fs1 ++ fs2))
     = readServiceInterfaces (mkPackage name fs1) ++ readServiceInterfaces (mkPackage name fs2)
  /\ (forall fn specs ch,
        readIfaces (mkPackage name [mkNode (KFile fn) [mkNode (KGenDecl TYPE specs) ch]]) pat
        = List.filter (fun t => isInterfaceType (ts_Type t) && pat (ts_Name t)) specs).
Proof.
  unfold readIfaces, readServiceInterfaces, pkgNode. simpl pkg_Files.
  split; [|split].
  - rewrite !Walk_candidates. simpl. by rewrite flat_map_app.
  - rewrite !Walk_candidates. simpl. by rewrite flat_map_app.
  - intros fn specs ch. rewrite Walk_candidates. simpl. by rewrite !app_nil_r.
Qed.

Lemma append_nil_r (s : string) : s +:+ EmptyString = s.
Proof.
  induction s as [|c s IH]; [done|].
  change (String c (s +:+ EmptyString) = String c s). by f_equal.
Qed.

Lemma append_assoc (a b c : string) : (a +:+ b) +:+ c = a +:+ (b +:+ c).
Proof.
  induction a as [|x a IH]; [done|].
  change (String x ((a +:+ b) +:+ c) = String x (a +:+ (b +:+ c))). by f_equal.
Qed.

(** X21: when no package has a matching interface, the run exits with
    status 0 having made no directory, written no file and printed
    nothing; the log holds one warning per package. *)
Theorem X21_run_without_any_match_only_warns
    (env : Env) (ifacePat outDir : string) (pat : string -> bool) (pkgs : list Package)
    (w : World) :
  Forall (fun pkg => readIfaces pkg pat = []) pkgs ->
  RegexMain.mainLoop env ifacePat outDir pat pkgs w
  = (Exit0,
     mkWorld (heap w) (dirs w) (files w) (stdout w)
             (stderr w +:+ repeatLine (length pkgs) (RegexMain.warning env ifacePat))).
Proof.
  intros H. revert w. induction H as [|pkg pkgs Hp _ IH]; intros w; simpl.
  - rewrite append_nil_r. by destruct w.
  - rewrite Hp. simpl. rewrite IH. simpl. by rewrite !append_assoc.
Qed.

Lemma X21_witness :
  RegexMain.mainLoop (demoEnv true noWriteErr) ".+Service" "out" dotPlusService
    [pkgEmpty; pkgEmpty] (world0 ∅)
  = (Exit0,
     mkWorld ∅ [] ∅ EmptyString
       (EmptyString
        +:+ repeatLine 2 (RegexMain.warning (demoEnv true noWriteErr) ".+Service"))).
Proof.
  apply (X21_run_without_any_match_only_warns (demoEnv true noWriteErr) ".+Service" "out"
           dotPlusService [pkgEmpty; pkgEmpty] (world0 ∅)).
  repeat constructor.
Defined.

(** X22: when the output directory cannot be made for a package that has
    matching interfaces, the run logs the error and exits with status 1;
    nothing else has happened, and the packages after it are not
    processed. *)
Theorem X22_failed_mkdir_is_fatal
    (env : Env) (ifacePat outDir : string) (pat : string -> bool) (pkg : Package)
    (rest : list Package) (w : World) (e : string) :
  readIfaces pkg pat <> [] ->
  MkdirAll_err env outDir = Some e ->
  RegexMain.mainLoop env ifacePat outDir pat (pkg :: rest) w
  = (Exit1, mkWorld (heap w) (dirs w) (files w) (stdout w) (stderr w +:+ e +:+ nl)).
Proof.
  intros Hne Hmk. simpl. destruct (readIfaces pkg pat) as [|t ts]; [done|]. simpl.
  unfold RegexRun.writeMockImplFiles, bind, MkdirAll. rewrite Hmk.
  reflexivity.
Qed.

Lemma X22_witness :
  RegexMain.mainLoop noMkdirEnv ".+Service" "out" dotPlusService [pkgSvc; pkgEmpty]
    (world0 svcHeap)
  = (Exit1,
     mkWorld svcHeap [] ∅ EmptyString (EmptyString +:+ "read-only file system" +:+ nl)).
Proof.
  apply (X22_failed_mkdir_is_fatal noMkdirEnv ".+Service" "out" dotPlusService pkgSvc
           [pkgEmpty] (world0 svcHeap) "read-only file system").
  - vm_compute. discriminate.
  - reflexivity.
Defined.

(** X23: the fixed-suffix variant has no warning for an empty selection:
    when the package has no interface named [...Service], the run still
    makes the output directory, writes and logs nothing, and exits with
    status 0. *)
Theorem X23_suffix_variant_empty_selection_still_makes_the_directory
    (env : Env) (importPath pkgName outDir dir : string) (pkgs : list Package)
    (svcPkg : Package) (w : World) :
  importPath <> EmptyString ->
  find (fun pkg => String.eqb (pkg_Name pkg) pkgName) pkgs = Some svcPkg ->
  readServiceInterfaces svcPkg = [] ->
  MkdirAll_err env outDir = None ->
  SuffixMain.main env importPath pkgName outDir dir (Ok pkgs) w
  = (Exit0, mkWorld (heap w) (dirs w ++ [outDir]) (files w) (stdout w) (stderr w)).
Proof.
  intros Hip Hfind Hnone Hmk. unfold SuffixMain.main.
  apply String.eqb_neq in Hip. rewrite Hip, Hfind, Hnone.
  unfold SuffixRun.writeMockImplFiles, bind, MkdirAll. by rewrite Hmk.
Qed.

Lemma X23_witness :
  SuffixMain.main (demoEnv false noWriteErr) "example.org/util" "util" "out" "/src/util"
    (Ok [pkgSvc; pkgEmpty]) (world0 ∅)
  = (Exit0, mkWorld ∅ ([] ++ ["out"]) ∅ EmptyString EmptyString).
Proof.
  apply (X23_suffix_variant_empty_selection_still_makes_the_directory
           (demoEnv false noWriteErr) "example.org/util" "util" "out" "/src/util"
           [pkgSvc; pkgEmpty] pkgEmpty (world0 ∅)).
  - discriminate.
  - reflexivity.
  - vm_compute. reflexivity.
  - reflexivity.
Defined.

(** ** Further properties: what a pass leaves alone *)

Lemma emit_write_mode_stdout (env : Env) (outDir : string) (iface : TypeSpec) (file : File)
    (w : World) :
  writeFiles env = true -> stdout (snd (emit env outDir iface file w)) = stdout w.
Proof. intros Hw. unfold emit. rewrite Hw. run_emit. Qed.

Lemma emit_other_files (env : Env) (outDir : string) (iface : TypeSpec) (file : File)
    (w : World) (path : string) :
  path <> outputPath env outDir iface ->
  files (snd (emit env outDir iface file w)) !! path = files w !! path.
Proof.
  intros Hne. run_emit; rewrite ?lookup_insert_ne by done; try done.
Qed.

Lemma Regex_writeLoop_stdout (env : Env) (outDir outPkg : string) (ifaces : list TypeSpec)
    (w : World) :
  writeFiles env = true ->
  stdout (snd (RegexRun.writeLoop env outDir outPkg ifaces w)) = stdout w.
Proof.
  intros Hw. revert w. induction ifaces as [|iface rest IH]; intros w; simpl; [done|].
  unfold bind at 1.
  destruct (onHeap _ w) as [[file| |] w1] eqn:E1; simpl;
    pose proof (onHeap_frame (Regex.mockFile outPkg iface) w) as (_ & _ & Hs & _);
    rewrite E1 in Hs; simpl in Hs; try done.
  unfold bind at 1.
  pose proof (emit_write_mode_stdout env outDir iface file w1 Hw) as He.
  destruct (emit env outDir iface file w1) as [[[]| |] w2]; simpl in *; try congruence;
    rewrite IH; congruence.
Qed.

Lemma Suffix_writeLoop_stdout (env : Env) (importPath outDir pkgName : string)
    (ifaces : list TypeSpec) (w : World) :
  writeFiles env = true ->
  stdout (snd (SuffixRun.writeLoop env importPath outDir pkgName ifaces w)) = stdout w.
Proof.
  intros Hw. revert w. induction ifaces as [|iface rest IH]; intros w; simpl; [done|].
  unfold bind at 1.
  destruct (onHeap _ w) as [[file| |] w1] eqn:E1; simpl;
    pose proof (onHeap_frame
                  (fun h => (Suffix.mockFile importPath pkgName iface h, h)) w)
      as (_ & _ & Hs & _);
    rewrite E1 in Hs; simpl in Hs; try done.
  unfold bind at 1.
  pose proof (emit_write_mode_stdout env outDir iface file w1 Hw) as He.
  destruct (emit env outDir iface file w1) as [[[]| |] w2]; simpl in *; try congruence;
    rewrite IH; congruence.
Qed.

(** X24: with [-w] nothing is printed on standard output, by either variant,
    whatever succeeds or fails. *)
Theorem X24_write_mode_prints_nothing
    (env : Env) (importPath outDir outPkg : string) (ifaces : list TypeSpec) (w : World) :
  writeFiles env = true ->
  stdout (snd (RegexRun.writeMockImplFiles env outDir outPkg ifaces w)) = stdout w
  /\ stdout (snd (SuffixRun.writeMockImplFiles env importPath outDir outPkg ifaces w))
     = stdout w.
Proof.
  intros Hw. unfold RegexRun.writeMockImplFiles, SuffixRun.writeMockImplFiles, bind, MkdirAll.
  destruct (MkdirAll_err env outDir); [done|]. split.
  - by rewrite Regex_writeLoop_stdout.
  - by rewrite Suffix_writeLoop_stdout.
Qed.

Lemma X24_witness :
  stdout (snd (RegexRun.writeMockImplFiles (demoEnv true noWriteErr) "out" "mocks"
                 [checkerSvc; fetcherSvc] (world0 svcHeap))) = EmptyString
  /\ stdout (snd (SuffixRun.writeMockImplFiles (demoEnv true noWriteErr) "example.org/svc"
                    "out" "mocks" [checkerSvc; fetcherSvc] (world0 svcHeap))) = EmptyString.
Proof.
  apply (X24_write_mode_prints_nothing (demoEnv true noWriteErr) "example.org/svc" "out"
           "mocks" [checkerSvc; fetcherSvc] (world0 svcHeap)).
  reflexivity.
Defined.

Lemma Regex_writeLoop_other_files (env : Env) (outDir outPkg : string)
    (ifaces : list TypeSpec) (w : World) (path : string) :
  Forall (fun iface => path <> outputPath env outDir iface) ifaces ->
  files (snd (RegexRun.writeLoop env outDir outPkg ifaces w)) !! path = files w !! path.
Proof.
  intros H. revert w. induction H as [|iface rest Hne _ IH]; intros w; simpl; [done|].
  unfold bind at 1.
  destruct (onHeap _ w) as [[file| |] w1] eqn:E1; simpl;
    pose proof (onHeap_frame (Regex.mockFile outPkg iface) w) as (_ & Hf & _);
    rewrite E1 in Hf; simpl in Hf; try (by rewrite Hf).
  unfold bind at 1.
  pose proof (emit_other_files env outDir iface file w1 path Hne) as He.
  destruct (emit env outDir iface file w1) as [[[]| |] w2]; simpl in *;
    rewrite ?IH; by rewrite He, Hf.
Qed.

Lemma Suffix_writeLoop_other_files (env : Env) (importPath outDir pkgName : string)
    (ifaces : list TypeSpec) (w : World) (path : string) :
  Forall (fun iface => path <> outputPath env outDir iface) ifaces ->
  files (snd (SuffixRun.writeLoop env importPath outDir pkgName ifaces w)) !! path
  = files w !! path.
Proof.
  intros H. revert w. induction H as [|iface rest Hne _ IH]; intros w; simpl; [done|].
  unfold bind at 1.
  destruct (onHeap _ w) as [[file| |] w1] eqn:E1; simpl;
    pose proof (onHeap_frame
                  (fun h => (Suffix.mockFile importPath pkgName iface h, h)) w)
      as (_ & Hf & _);
    rewrite E1 in Hf; simpl in Hf; try (by rewrite Hf).
  unfold bind at 1.
  pose proof (emit_other_files env outDir iface file w1 path Hne) as He.
  destruct (emit env outDir iface file w1) as [[[]| |] w2]; simpl in *;
    rewrite ?IH; by rewrite He, Hf.
Qed.

(** X25: a generation pass of either variant, in either mode, changes no
    file other than the output files derived from the selected interfaces'
    source files. *)
Theorem X25_only_the_derived_output_files_change
    (env : Env) (importPath outDir outPkg : string) (ifaces : list TypeSpec) (w : World)
    (path : string) :
  Forall (fun iface => path <> outputPath env outDir iface) ifaces ->
  files (snd (RegexRun.writeMockImplFiles env outDir outPkg ifaces w)) !! path
  = files w !! path
  /\ files (snd (SuffixRun.writeMockImplFiles env importPath outDir outPkg ifaces w)) !! path
     = files w !! path.
Proof.
  intros H. unfold RegexRun.writeMockImplFiles, SuffixRun.writeMockImplFiles, bind, MkdirAll.
  destruct (MkdirAll_err env outDir); [done|]. split.
  - by rewrite Regex_writeLoop_other_files.
  - by rewrite Suffix_writeLoop_other_files.
Qed.

Lemma X25_witness :
  files (snd (RegexRun.writeMockImplFiles (demoEnv true noWriteErr) "out" "mocks"
                [checkerSvc] staleWorld)) !! "out/fetch_mock.go"
  = files staleWorld !! "out/fetch_mock.go"
  /\ files (snd (SuffixRun.writeMockImplFiles (demoEnv true noWriteErr) "example.org/svc"
                   "out" "mocks" [checkerSvc] staleWorld)) !! "out/fetch_mock.go"
     = files staleWorld !! "out/fetch_mock.go".
Proof.
  apply (X25_only_the_derived_output_files_change (demoEnv true noWriteErr)
           "example.org/svc" "out" "mocks" [checkerSvc] staleWorld "out/fetch_mock.go").
  repeat constructor. vm_compute. discriminate.
Defined.

(** ** The mock of an interface, method by method *)



(** What the store holds after the second loop: the function types of the
    entries with their names synthesized, everything else as before. *)
Lemma Regex_mockMethods_final_store (mock : string) (ms : list Field)
    (h h' : gmap nat FuncType) (r : Result (list Decl)) (p : nat) :
  Forall (fun m => isMethodAt h m = true) ms ->
  Regex.mockMethods mock ms h = (r, h') ->
  h' !! p = if isMethodLoc ms p then synthType <$> (h !! p) else h !! p.
Proof.
  intros Hall. revert h h' r Hall.
  induction ms as [|m ms IH]; intros h h' r Hall Hrun; simpl in Hrun.
  - by injection Hrun as _ <-.
  - apply Forall_cons in Hall as [Hm Hall].
    destruct (isMethodAt_inv _ _ Hm) as (q & name & g & Ht & Hn & Hq).
    rewrite Ht, Hq, Hn in Hrun. fold (synthType g) in Hrun.
    assert (Hall1 : Forall (fun m => isMethodAt (<[q := synthType g]> h) m = true) ms).
    { eapply Forall_impl; [exact Hall|]. intros x. apply isMethodAt_insert. }
    destruct (Regex.mockMethods mock ms (<[q := synthType g]> h)) as [r2 h2] eqn:Hrest.
    assert (Hh : h' = h2) by (destruct r2; by injection Hrun as _ <-). subst h2.
    rewrite (IH _ _ _ Hall1 Hrest). unfold isMethodLoc at 2. simpl. rewrite Ht.
    fold (isMethodLoc ms p).
    destruct (decide (q = p)) as [->|Hne].
    + rewrite Nat.eqb_refl, lookup_insert_eq, Hq. simpl.
      destruct (isMethodLoc ms p); simpl; [|done].
      unfold synthType. simpl. by rewrite synthesize_idempotent.
    + rewrite lookup_insert_ne by done.
      apply Nat.eqb_neq in Hne. by rewrite Hne.
Qed.

(** The second loop of the regular-expression variant builds, for methods
    only, exactly the expected delegating methods over the store it
    leaves. *)
Lemma Regex_mockMethods_exact (ifaceName : string) (ms : list Field) (h : gmap nat FuncType) :
  Forall (fun m => isMethodAt h m = true) ms ->
  exists h',
    Regex.mockMethods ("Mock" +:+ ifaceName) ms h
    = (Ok (map (delegatingMethod ifaceName h') ms), h').
Proof.
  revert h. induction ms as [|m ms IH]; intros h Hall; simpl.
  - by exists h.
  - apply Forall_cons in Hall as [Hm Hall].
    destruct (isMethodAt_inv _ _ Hm) as (q & name & g & Ht & Hn & Hq).
    rewrite Ht, Hq, Hn. fold (synthType g).
    destruct (IH (<[q := synthType g]> h)) as (h' & Hrest).
    { eapply Forall_impl; [exact Hall|]. intros x. apply isMethodAt_insert. }
    rewrite Hrest. exists h'. do 2 f_equal.
    assert (Hq' : h' !! q = Some (synthType g)).
    { eapply Regex_mockMethods_stable; [exact Hrest|by rewrite lookup_insert_eq|].
      apply synthesizeFrom_named. }
    unfold delegatingMethod, delegate, recvOf, paramsAt, methodLoc, methodName.
    rewrite Ht, Hn, Hq'. simpl. by rewrite fieldListToIdentList_names.
Qed.

Lemma Suffix_mockMethods_exact (ifaceName : string) (ms : list Field) (h : gmap nat FuncType) :
  Forall (fun m => isMethodAt h m = true) ms ->
  Suffix.mockMethods ("Mock" +:+ ifaceName) ms h
  = Ok (map (delegatingMethod ifaceName h) ms).
Proof.
  induction 1 as [|m ms Hm _ IH]; simpl; [done|].
  destruct (isMethodAt_inv _ _ Hm) as (q & name & g & Ht & Hn & Hq).
  rewrite Ht, Hq, Hn, IH. do 2 f_equal.
  unfold delegatingMethod, delegate, recvOf, paramsAt, methodLoc, methodName.
  rewrite Ht, Hn, Hq. simpl. by rewrite fieldListToIdentList_names.
Qed.

(** C1 as stated fails: every entry of this interface is a function type,
    the second one without a name, and both variants panic at
    [methField.Names[0]] instead of building fields and methods. *)
Lemma C1_function_type_entry_without_name_panics :
  forallb isFuncEntry [mkField ["Get"] (FuncTypeAt 1); mkField [] (FuncTypeAt 0)] = true
  /\ ts_Type typeElemIface
     = InterfaceType [mkField ["Get"] (FuncTypeAt 1); mkField [] (FuncTypeAt 0)]
  /\ Regex.mockFile "mocks" typeElemIface svcHeap = (Panic "index out of range", svcHeap)
  /\ Suffix.mockFile "example.org/svc" "svc" typeElemIface svcHeap
     = Panic "index out of range".
Proof. repeat split; vm_compute; reflexivity. Qed.

(** C1, amended: for an interface whose method-list entries are all named
    function types, the methods [m1..mn], both variants build a file whose
    struct has exactly the [n] fields [mi_], each of [mi]'s function type,
    in declaration order, followed by exactly the [n] delegating methods of
    the mock, the [i]-th with receiver [s *Mock<I>], [mi]'s name and
    function type, and the body [return s.mi_(...)]; the regular-expression
    variant leaves the methods' function types with their names
    synthesized and the rest of the store as it was, the fixed-suffix
    variant reads the store as it is. *)
Theorem C1_fields_and_delegating_methods_in_declaration_order
    (h : gmap nat FuncType) (iface : TypeSpec) (ms : list Field) (outPkg importPath : string) :
  ts_Type iface = InterfaceType ms ->
  Forall (fun m => isMethodAt h m = true) ms ->
  (exists h',
      Regex.mockFile outPkg iface h
      = (Ok (mkFile outPkg
               (TypeDecl ("Mock" +:+ ts_Name iface) (StructType (map fieldOf ms))
                :: map (delegatingMethod (ts_Name iface) h') ms)), h')
      /\ forall p, h' !! p = if isMethodLoc ms p then synthType <$> (h !! p) else h !! p)
  /\ Suffix.mockFile importPath outPkg iface h
     = Ok (mkFile outPkg
             (ImportDecl importPath
              :: TypeDecl ("Mock" +:+ ts_Name iface) (StructType (map fieldOf ms))
              :: map (delegatingMethod (ts_Name iface) h) ms))
  /\ length (map fieldOf ms) = length ms
  /\ length (map (delegatingMethod (ts_Name iface) h) ms) = length ms.
Proof.
  intros Hty Hall. split; [|split; [|split; apply length_map]].
  - destruct (Regex_mockMethods_exact (ts_Name iface) ms h Hall) as (h' & Hm).
    exists h'. split.
    + unfold Regex.mockFile, mockTypeNameOf.
      by rewrite Hty, (mockFields_methods h ms Hall), Hm.
    + intros p. by eapply Regex_mockMethods_final_store.
  - unfold Suffix.mockFile, mockTypeNameOf.
    by rewrite Hty, (mockFields_methods h ms Hall),
         (Suffix_mockMethods_exact (ts_Name iface) ms h Hall).
Qed.

Lemma C1_witness :
  (exists h',
      Regex.mockFile "mocks" storeIface svcHeap
      = (Ok (mkFile "mocks"
               (TypeDecl ("Mock" +:+ ts_Name storeIface)
                  (StructType
                     (map fieldOf [mkField ["Get"] (FuncTypeAt 1); mkField ["Check"] (FuncTypeAt 0)]))
                :: map (delegatingMethod (ts_Name storeIface) h')
                     [mkField ["Get"] (FuncTypeAt 1); mkField ["Check"] (FuncTypeAt 0)])), h')
      /\ forall p,
          h' !! p
          = if isMethodLoc [mkField ["Get"] (FuncTypeAt 1); mkField ["Check"] (FuncTypeAt 0)] p
            then synthType <$> (svcHeap !! p) else svcHeap !! p)
  /\ Suffix.mockFile "example.org/svc" "mocks" storeIface svcHeap
     = Ok (mkFile "mocks"
             (ImportDecl "example.org/svc"
              :: TypeDecl ("Mock" +:+ ts_Name storeIface)
                   (StructType
                      (map fieldOf [mkField ["Get"] (FuncTypeAt 1); mkField ["Check"] (FuncTypeAt 0)]))
              :: map (delegatingMethod (ts_Name storeIface) svcHeap)
                   [mkField ["Get"] (FuncTypeAt 1); mkField ["Check"] (FuncTypeAt 0)]))
  /\ length (map fieldOf [mkField ["Get"] (FuncTypeAt 1); mkField ["Check"] (FuncTypeAt 0)]) = 2
  /\ length (map (delegatingMethod (ts_Name storeIface) svcHeap)
               [mkField ["Get"] (FuncTypeAt 1); mkField ["Check"] (FuncTypeAt 0)]) = 2.
Proof.
  apply (C1_fields_and_delegating_methods_in_declaration_order svcHeap storeIface
           [mkField ["Get"] (FuncTypeAt 1); mkField ["Check"] (FuncTypeAt 0)]
           "mocks" "example.org/svc").
  - reflexivity.
  - repeat constructor.
Defined.

Example store_mock_regex :
  Regex.mockFile "mocks" storeIface svcHeap
  = (Ok (mkFile "mocks"
           [TypeDecl "MockStore"
              (StructType [mkField ["Get_"] (FuncTypeAt 1); mkField ["Check_"] (FuncTypeAt 0)]);
            FuncDecl [mkField ["s"] (StarExpr (Ident "MockStore"))] "Get" 1
              [ReturnStmt [CallExpr (SelectorExpr (Ident "s") "Get_") [Ident "id"]]];
            FuncDecl [mkField ["s"] (StarExpr (Ident "MockStore"))] "Check" 0
              [ReturnStmt [CallExpr (SelectorExpr (Ident "s") "Check_") [Ident "v0"]]]]),
     {[ 0 := mkFuncType [mkField ["v0"] (Ident "bool")] [mkField [] (Ident "error")];
        1 := mkFuncType [mkField ["id"] (Ident "string")]
                        [mkField [] (Ident "string"); mkField [] (Ident "error")] ]}).
Proof. vm_compute. reflexivity. Qed.



(** ** The run over the parsed packages *)

Lemma mainLoop_app (env : Env) (ifacePat outDir : string) (pat : string -> bool)
    (pre post : list Package) (w w1 : World) :
  RegexMain.mainLoop env ifacePat outDir pat pre w = (Exit0, w1) ->
  RegexMain.mainLoop env ifacePat outDir pat (pre ++ post) w
  = RegexMain.mainLoop env ifacePat outDir pat post w1.
Proof.
  revert w. induction pre as [|pkg pre IH]; intros w Hpre; simpl in *.
  - by injection Hpre as ->.
  - destruct (Nat.eqb (length (readIfaces pkg pat)) 0); [by apply IH|].
    destruct (RegexRun.writeMockImplFiles env outDir (pkg_Name pkg) (readIfaces pkg pat) w)
      as [[[]| |] w'].
    + by apply IH.
    + unfold logFatal in Hpre. discriminate Hpre.
    + discriminate Hpre.
Qed.

Lemma Regex_writeLoop_log_grows (env : Env) (outDir outPkg : string)
    (ifaces : list TypeSpec) (w : World) :
  exists tail, stderr (snd (RegexRun.writeLoop env outDir outPkg ifaces w)) = stderr w +:+ tail.
Proof.
  revert w. induction ifaces as [|iface rest IH]; intros w; simpl.
  - exists EmptyString. by rewrite append_nil_r.
  - unfold bind at 1.
    pose proof (onHeap_frame (Regex.mockFile outPkg iface) w) as (_ & _ & _ & Hs).
    destruct (onHeap _ w) as [[file| |] w1]; simpl in *;
      try (exists EmptyString; by rewrite append_nil_r, Hs).
    unfold bind at 1.
    pose proof (emit_logs_path env outDir iface file w1) as He.
    destruct (emit env outDir iface file w1) as [[[]| |] w2]; simpl in *;
      try (exists (pathLine env outDir iface); by rewrite He, Hs).
    destruct (IH w2) as (tail & Ht). exists (pathLine env outDir iface +:+ tail).
    by rewrite Ht, He, Hs, append_assoc.
Qed.

Lemma mainLoop_log_grows (env : Env) (ifacePat outDir : string) (pat : string -> bool)
    (pkgs : list Package) (w : World) :
  exists tail,
    stderr (snd (RegexMain.mainLoop env ifacePat outDir pat pkgs w)) = stderr w +:+ tail.
Proof.
  revert w. induction pkgs as [|pkg pkgs IH]; intros w; simpl.
  - exists EmptyString. by rewrite append_nil_r.
  - destruct (Nat.eqb (length (readIfaces pkg pat)) 0).
    + match goal with
      | |- context [RegexMain.mainLoop env ifacePat outDir pat pkgs ?w'] =>
          destruct (IH w') as (tail & Ht)
      end.
      exists ((RegexMain.warning env ifacePat +:+ nl) +:+ tail).
      rewrite Ht. simpl. by rewrite append_assoc.
    + assert (Hw : exists tail,
                 stderr (snd (RegexRun.writeMockImplFiles env outDir (pkg_Name pkg)
                                (readIfaces pkg pat) w)) = stderr w +:+ tail).
      { unfold RegexRun.writeMockImplFiles, bind, MkdirAll.
        destruct (MkdirAll_err env outDir).
        - exists EmptyString. by rewrite append_nil_r.
        - destruct (Regex_writeLoop_log_grows env outDir (pkg_Name pkg) (readIfaces pkg pat)
                      (mkWorld (heap w) (dirs w ++ [outDir]) (files w) (stdout w) (stderr w)))
            as (tail & Ht).
          by exists tail. }
      destruct Hw as (tail & Ht).
      destruct (RegexRun.writeMockImplFiles env outDir (pkg_Name pkg) (readIfaces pkg pat) w)
        as [[[]| |] w']; simpl in *.
      * destruct (IH w') as (tail' & Ht'). exists (tail +:+ tail').
        by rewrite Ht', Ht, append_assoc.
      * exists (tail +:+ (err +:+ nl)). by rewrite Ht, append_assoc.
      * by exists tail.
Qed.

(** C6: when the run reaches a package without matching interfaces (the
    packages before it were processed without a fatal error), it adds the
    warning line to the log and nothing else: no directory, no file, no
    output.  If the package is the last one the run ends there with status
    0; otherwise the remaining packages are processed from that state, and
    the log of the whole run holds the warning right after what the earlier
    packages logged. *)
Theorem C6_package_without_match_is_warned_about_and_passed
    (env : Env) (ifacePat outDir : string) (pat : string -> bool)
    (pre : list Package) (pkg : Package) (post : list Package) (w w1 : World) :
  readIfaces pkg pat = [] ->
  RegexMain.mainLoop env ifacePat outDir pat pre w = (Exit0, w1) ->
  RegexMain.mainLoop env ifacePat outDir pat (pre ++ [pkg]) w
  = (Exit0,
     mkWorld (heap w1) (dirs w1) (files w1) (stdout w1)
             (stderr w1 +:+ "warning: package has no interface types matching "
              +:+ Quote env ifacePat +:+ nl))
  /\ RegexMain.mainLoop env ifacePat outDir pat (pre ++ pkg :: post) w
     = RegexMain.mainLoop env ifacePat outDir pat post (warned env ifacePat w1)
  /\ exists tail,
       stderr (snd (RegexMain.mainLoop env ifacePat outDir pat (pre ++ pkg :: post) w))
       = (stderr w1 +:+ "warning: package has no interface types matching "
          +:+ Quote env ifacePat +:+ nl) +:+ tail.
Proof.
  intros Hnone Hpre.
  assert (Hstep : forall rest,
             RegexMain.mainLoop env ifacePat outDir pat (pre ++ pkg :: rest) w
             = RegexMain.mainLoop env ifacePat outDir pat rest (warned env ifacePat w1)).
  { intros rest. rewrite (mainLoop_app _ _ _ _ pre (pkg :: rest) w w1 Hpre).
    simpl. rewrite Hnone. reflexivity. }
  split; [|split].
  - rewrite Hstep. reflexivity.
  - apply Hstep.
  - rewrite Hstep.
    destruct (mainLoop_log_grows env ifacePat outDir pat post (warned env ifacePat w1))
      as (tail & Ht).
    exists tail. exact Ht.
Qed.

Lemma C6_witness :
  let env := demoEnv false noWriteErr in
  let w1 := snd (RegexMain.mainLoop env ".+Service" "out" dotPlusService [pkgSvc]
                   (world0 svcHeap)) in
  RegexMain.mainLoop env ".+Service" "out" dotPlusService ([pkgSvc] ++ [pkgEmpty])
    (world0 svcHeap)
  = (Exit0,
     mkWorld (heap w1) (dirs w1) (files w1) (stdout w1)
             (stderr w1 +:+ "warning: package has no interface types matching "
              +:+ Quote env ".+Service" +:+ nl))
  /\ RegexMain.mainLoop env ".+Service" "out" dotPlusService
       ([pkgSvc] ++ pkgEmpty :: [pkgSvc]) (world0 svcHeap)
     = RegexMain.mainLoop env ".+Service" "out" dotPlusService [pkgSvc]
         (warned env ".+Service" w1)
  /\ exists tail,
       stderr (snd (RegexMain.mainLoop env ".+Service" "out" dotPlusService
                      ([pkgSvc] ++ pkgEmpty :: [pkgSvc]) (world0 svcHeap)))
       = (stderr w1 +:+ "warning: package has no interface types matching "
          +:+ Quote env ".+Service" +:+ nl) +:+ tail.
Proof.
  intros env w1.
  apply (C6_package_without_match_is_warned_about_and_passed env ".+Service" "out"
           dotPlusService [pkgSvc] pkgEmpty [pkgSvc] (world0 svcHeap) w1).
  - vm_compute. reflexivity.
  - vm_compute. reflexivity.
Defined.

Example run_with_a_package_without_match :
  RegexMain.mainLoop (demoEnv false noWriteErr) ".+Service" "out" dotPlusService
    [pkgEmpty; pkgTopLevel] (world0 ∅)
  = (Exit0,
     mkWorld ∅ ["out"] ∅
       ("package svc" +:+ nl +:+ "type MockFooService struct {  }" +:+ nl)
       ("warning: package has no interface types matching '.+Service'" +:+ nl
        +:+ "# out/a_mock.go" +:+ nl)).
Proof. vm_compute. reflexivity. Qed.
